(** * The base64 gateway (server.ts) and the vendor-bill attachment Suitelet

    A shallow embedding of the two cooperating programs of the repository:
    the Express gateway of [src/server.ts], which decodes base64 payloads and
    either returns them or forwards them to an upstream URL, and the
    SuiteScript Suitelet that submits every attachment of a vendor bill to
    that gateway and reports one outcome per attachment.

    Definitions come first (modules [JS], [Base64], [Gateway], [GatewayRaw]
    and [Suitelet]); the theorems follow. *)

From Stdlib Require Import ZArith Ascii String List Bool Lia.
From stdpp Require Import base option list gmap strings pretty.

Set Warnings "-register-all".

Open Scope Z_scope.
Open Scope string_scope.

(** ** JavaScript values and exceptions *)

Module JS.

(** The values that travel as JSON between the programs, plus [undefined].
    Numbers are the integers: the only numbers the programs inspect are HTTP
    status codes and counts. An object is its list of properties. A string
    is a sequence of 8-bit characters, which holds every text the programs
    write themselves and every value allowed in an HTTP header. *)
Inductive value : Type :=
| Undefined
| Null
| Bool (b : bool)
| Num (n : Z)
| Str (s : string)
| Arr (elems : list value)
| Obj (props : list (string * value)).

(** [!!v] *)
Definition truthy (v : value) : bool :=
  match v with
  | Undefined | Null => false
  | Bool b => b
  | Num n => negb (n =? 0)%Z
  | Str s => negb (String.eqb s EmptyString)
  | Arr _ | Obj _ => true
  end.

(** Truthiness of an optional string ([undefined] when [None]). *)
Definition truthy_str (o : option string) : bool :=
  match o with
  | Some s => negb (String.eqb s EmptyString)
  | None => false
  end.

(** [o || d] on an optional string. *)
Definition or_else (o : option string) (d : string) : string :=
  match o with
  | Some s => if String.eqb s EmptyString then d else s
  | None => d
  end.

(** The one-character string holding a double quote. *)
Definition dquote : string := String (ascii_of_nat 34) EmptyString.

Fixpoint assoc (k : string) (props : list (string * value)) : value :=
  match props with
  | [] => Undefined
  | (k', v) :: rest => if String.eqb k k' then v else assoc k rest
  end.

(** Reading a named property in a destructuring pattern or on a value known
    to be neither [undefined] nor [null]; the names read by the programs are
    own properties of objects only. *)
Definition field (o : value) (k : string) : value :=
  match o with
  | Obj props => assoc k props
  | _ => Undefined
  end.

Inductive error_class := SyntaxError | TypeError | RangeError | OtherError (name : string).

(** An exception: its class, its message, and whether it carries a [body]
    property (as the errors raised by the JSON body parser do). *)
Record error := {
  err_class : error_class;
  err_message : string;
  err_has_body : bool
}.

Definition class_name (c : error_class) : string :=
  match c with
  | SyntaxError => "SyntaxError"
  | TypeError => "TypeError"
  | RangeError => "RangeError"
  | OtherError name => name
  end.

(** [e.toString()] *)
Definition error_toString (e : error) : string :=
  let name := class_name (err_class e) in
  if String.eqb name EmptyString then err_message e
  else if String.eqb (err_message e) EmptyString then name
  else name ++ ": " ++ err_message e.

(** [o.k], which throws a [TypeError] on [undefined] and [null]. *)
Definition get (o : value) (k : string) : error + value :=
  match o with
  | Undefined | Null =>
      inl {| err_class := TypeError;
             err_message := "Cannot read properties of " ++
                            (if o is Null then "null" else "undefined") ++
                            " (reading '" ++ k ++ "')";
             err_has_body := false |}
  | _ => inr (field o k)
  end.

(** [a === b] against a number literal. *)
Definition strict_eq_num (v : value) (n : Z) : bool :=
  match v with
  | Num m => (m =? n)%Z
  | _ => false
  end.

(** String conversion, as performed by ['text' + v] and by template
    literals. *)
Fixpoint to_string (v : value) : string :=
  match v with
  | Undefined => "undefined"
  | Null => "null"
  | Bool true => "true"
  | Bool false => "false"
  | Num n => pretty n
  | Str s => s
  | Arr elems =>
      (fix join (l : list value) : string :=
         match l with
         | [] => EmptyString
         | x :: rest =>
             let sx := match x with Undefined | Null => EmptyString | _ => to_string x end in
             match rest with
             | [] => sx
             | _ => sx ++ "," ++ join rest
             end
         end) elems
  | Obj _ => "[object Object]"
  end.

(** [typeof v] *)
Definition typeof (v : value) : string :=
  match v with
  | Undefined => "undefined"
  | Bool _ => "boolean"
  | Num _ => "number"
  | Str _ => "string"
  | Null | Arr _ | Obj _ => "object"
  end.

End JS.

(** ** [Buffer.from(s, "base64")]

    The decoding primitive of the Node.js runtime, which the gateway calls on
    [base64Data]. It never rejects a string: characters outside the base64
    alphabets (standard and URL-safe) are passed over, decoding stops at the
    first padding character, and a trailing group that does not fill a byte
    is dropped. Bytes are integers in [0, 256). The runtime reads a text by
    the low byte of each of its UTF-16 code units; [decode] is the decoder
    on the text of those low bytes, and [decode_units] the decoder on the
    code units themselves. *)

Module Base64.

Definition in_range (lo hi : N) (n : N) : bool := ((lo <=? n) && (n <=? hi))%N.

(** The 6-bit value of a base64 character, [None] for any other character. *)
Definition unbase64 (c : ascii) : option Z :=
  let n := N_of_ascii c in
  if in_range 65 90 n then Some (Z.of_N n - 65)
  else if in_range 97 122 n then Some (Z.of_N n - 71)
  else if in_range 48 57 n then Some (Z.of_N n + 4)
  else if ((n =? 43) || (n =? 45))%N then Some 62
  else if ((n =? 47) || (n =? 95))%N then Some 63
  else None.

(** The sextets of the legal characters that precede the first ['=']. *)
Fixpoint sextets (s : string) : list Z :=
  match s with
  | EmptyString => []
  | String c rest =>
      if Ascii.eqb c "="%char then []
      else match unbase64 c with
           | Some v => v :: sextets rest
           | None => sextets rest
           end
  end.

Definition byte1 (a b : Z) : Z :=
  Z.lor (Z.shiftl (Z.land a 63) 2) (Z.shiftr (Z.land b 48) 4).
Definition byte2 (b c : Z) : Z :=
  Z.lor (Z.shiftl (Z.land b 15) 4) (Z.shiftr (Z.land c 60) 2).
Definition byte3 (c d : Z) : Z :=
  Z.lor (Z.shiftl (Z.land c 3) 6) (Z.land d 63).

(** Four sextets give three bytes; a last group of three gives two bytes, of
    two gives one byte, and a single left-over sextet gives none. *)
Fixpoint pack (l : list Z) : list Z :=
  match l with
  | a :: b :: c :: d :: rest => byte1 a b :: byte2 b c :: byte3 c d :: pack rest
  | [a; b; c] => [byte1 a b; byte2 b c]
  | [a; b] => [byte1 a b]
  | _ => []
  end.

Definition decode (s : string) : list Z := pack (sextets s).

(** The character a code unit is read as: U+0141 counts as [A], its low
    byte. *)
Definition low_byte (u : N) : ascii := ascii_of_N (u mod 256).

Definition low_bytes (us : list N) : string :=
  string_of_list_ascii (map low_byte us).

(** [Buffer.from(s, "base64")] on the code units of [s]. *)
Definition decode_units (us : list N) : list Z := decode (low_bytes us).

(** Sextets are below 64 and bytes below 256. *)
Definition sextet (v : Z) : Prop := 0 ≤ v < 64.
Definition byte (v : Z) : Prop := 0 ≤ v < 256.


(** [buffer.toString("base64")], the encoding that [pdf-to-base64.js]
    writes and the Suitelet's platform supplies: the character of a sextet,
    and the text of a sequence of bytes, padded to whole groups. *)
Definition base64_char (v : Z) : ascii :=
  ascii_of_N (Z.to_N (if (v <? 26)%Z then v + 65
                      else if (v <? 52)%Z then v + 71
                      else if (v <? 62)%Z then v - 4
                      else if (v =? 62)%Z then 43
                      else 47)).

Definition sextet1 (x : Z) : Z := Z.shiftr x 2.
Definition sextet2 (x y : Z) : Z := Z.lor (Z.shiftl (Z.land x 3) 4) (Z.shiftr y 4).
Definition sextet3 (y z : Z) : Z := Z.lor (Z.shiftl (Z.land y 15) 2) (Z.shiftr z 6).
Definition sextet4 (z : Z) : Z := Z.land z 63.

Fixpoint encode (bs : list Z) : string :=
  match bs with
  | x :: y :: z :: rest =>
      String (base64_char (sextet1 x))
        (String (base64_char (sextet2 x y))
           (String (base64_char (sextet3 y z))
              (String (base64_char (sextet4 z)) (encode rest))))
  | [x; y] =>
      String (base64_char (sextet1 x))
        (String (base64_char (sextet2 x y))
           (String (base64_char (sextet3 y 0)) "="))
  | [x] =>
      String (base64_char (sextet1 x))
        (String (base64_char (sextet2 x 0)) "==")
  | [] => EmptyString
  end.

(** The bytes of a text, for stating examples. *)
Definition bytes_of (s : string) : list Z :=
  map (fun c => Z.of_N (N_of_ascii c)) (list_ascii_of_string s).

End Base64.

(** ** The gateway: [src/server.ts] *)

Module Gateway.

Abbreviation Headers := (gmap string string).

(** *** Request bodies

    The handlers read [req.body] through the interfaces the source declares
    for it. *)

(** [interface ForwardRequestBody]; an optional member is [None] when the
    property is [undefined], and [body] is any value. *)
Record ForwardRequestBody := {
  targetUrl : option string;
  fwd_method : option string;
  fwd_headers : option Headers;
  fwd_body : JS.value
}.

(** [interface ConvertForwardConfig] *)
Record ConvertForwardConfig := {
  url : option string;
  cfg_method : option string;
  cfg_headers : option Headers
}.

(** [interface ConvertRequestBody]. The handler only tests [base64Data]
    for emptiness and decodes it, so it is held by the characters the
    decoder reads it as (see [Base64.low_byte]). *)
Record ConvertRequestBody := {
  base64Data : option string;
  fileName : option string;
  mimeType : option string;
  forward : option ConvertForwardConfig
}.

(** A property declared [string]: [Some None] when it is [undefined],
    [Some (Some s)] for a string, and [None] for a value of any other type,
    which the declared interface excludes. *)
Definition read_string (v : JS.value) : option (option string) :=
  match v with
  | JS.Undefined => Some None
  | JS.Str s => Some (Some s)
  | _ => None
  end.

(** A property declared [Record<string, string>]. *)
Fixpoint read_record (props : list (string * JS.value)) : option Headers :=
  match props with
  | [] => Some ∅
  | (k, JS.Str s) :: rest =>
      match read_record rest with
      | Some m => Some (<[k := s]> m)
      | None => None
      end
  | _ => None
  end.

Definition read_headers (v : JS.value) : option (option Headers) :=
  match v with
  | JS.Undefined => Some None
  | JS.Obj props => option_map Some (read_record props)
  | _ => None
  end.

(** [req.body || {}] read as a [ForwardRequestBody]. *)
Definition read_ForwardRequestBody (body : JS.value) : option ForwardRequestBody :=
  match read_string (JS.field body "targetUrl"),
        read_string (JS.field body "method"),
        read_headers (JS.field body "headers") with
  | Some t, Some m, Some h =>
      Some {| targetUrl := t; fwd_method := m; fwd_headers := h;
              fwd_body := JS.field body "body" |}
  | _, _, _ => None
  end.

Definition read_ConvertForwardConfig (v : JS.value)
  : option (option ConvertForwardConfig) :=
  match v with
  | JS.Undefined => Some None
  | JS.Obj _ =>
      match read_string (JS.field v "url"),
            read_string (JS.field v "method"),
            read_headers (JS.field v "headers") with
      | Some u, Some m, Some h =>
          Some (Some {| url := u; cfg_method := m; cfg_headers := h |})
      | _, _, _ => None
      end
  | _ => None
  end.

(** [req.body || {}] read as a [ConvertRequestBody]. *)
Definition read_ConvertRequestBody (body : JS.value) : option ConvertRequestBody :=
  match read_string (JS.field body "base64Data"),
        read_string (JS.field body "fileName"),
        read_string (JS.field body "mimeType"),
        read_ConvertForwardConfig (JS.field body "forward") with
  | Some b, Some f, Some m, Some fw =>
      Some {| base64Data := b; fileName := f; mimeType := m; forward := fw |}
  | _, _, _, _ => None
  end.

(** *** The [form-data] and [axios] clients *)

(** One part of a multipart body: [append(field, value, {filename,
    contentType})]. *)
Record FormPart := {
  part_field : string;
  part_value : list Z;
  part_filename : string;
  part_contentType : string
}.

Record FormData := {
  form_boundary : string;
  form_parts : list FormPart
}.

(** [new FormData()], with the boundary the library draws for it. *)
Definition FormData_new (boundary : string) : FormData :=
  {| form_boundary := boundary; form_parts := [] |}.

Definition append (fd : FormData) (field : string) (value : list Z)
    (filename contentType : string) : FormData :=
  {| form_boundary := form_boundary fd;
     form_parts := form_parts fd ++
       [ {| part_field := field; part_value := value;
            part_filename := filename; part_contentType := contentType |} ] |}.

(** [formData.getHeaders()] *)
Definition getHeaders (fd : FormData) : Headers :=
  {[ "content-type" := "multipart/form-data; boundary=" ++ form_boundary fd ]}.

(** The object literal [{...a, ...b}]: the properties of [b] are written
    after those of [a] and replace them on equal keys. *)
Definition spread (a b : Headers) : Headers := b ∪ a.

Inductive RequestData :=
| DataValue (v : JS.value)
| DataForm (f : FormData)
| DataBuffer (b : list Z).

(** The configuration handed to [axios.request]. *)
Record AxiosRequestConfig := {
  req_url : string;
  req_method : string;
  req_headers : Headers;
  req_data : RequestData;
  validateStatus : Z -> bool
}.

Record AxiosResponse := {
  res_status : Z;
  res_headers : JS.value;
  res_data : JS.value
}.

(** What happens to an outbound request: the exchange completes with a
    response of some status, or it cannot be completed. *)
Inductive Exchange :=
| Completed (r : AxiosResponse)
| Failed (cls : JS.error_class) (message : string).

(** [await axios.request(cfg)]: the promise resolves with the response when
    [validateStatus] accepts its status and rejects otherwise. The errors
    axios rejects with have no [body] property. *)
Definition axios_request (network : AxiosRequestConfig -> Exchange)
    (cfg : AxiosRequestConfig) : JS.error + AxiosResponse :=
  match network cfg with
  | Completed r =>
      if validateStatus cfg (res_status r) then inr r
      else inl {| JS.err_class := JS.OtherError "AxiosError";
                  JS.err_message := "Request failed with status code " ++
                                    pretty (res_status r);
                  JS.err_has_body := false |}
  | Failed cls message =>
      inl {| JS.err_class := cls; JS.err_message := message;
             JS.err_has_body := false |}
  end.

(** *** Responses *)

Inductive ResBody :=
| Json (v : JS.value)
| Binary (b : list Z)
| Text (s : string)
| Empty.

(** The answer to a request as Express sends it: the status (200 unless
    [res.status] is called), the headers the handlers set with
    [res.setHeader] as they stand when the answer goes out, and the body
    that follows the head (to a [HEAD] request the same head is sent
    alone). *)
Record Response := {
  status : Z;
  headers : Headers;
  body : ResBody
}.

(** What Express does where the source leaves the answer to it.
    [revalidated] tells, from the headers of a conditional [GET], whether
    the validators match the answer about to be sent. [late_error] is what
    is sent besides the status when an error reaches the error handlers
    after the handler had set a [Content-Type]: [res.json] keeps that type,
    and cannot be sent under every type. *)
Record Express := {
  revalidated : Headers -> bool;
  late_error : string -> Headers * ResBody
}.

(** What the process is started with and what it reaches. *)
Record Env := {
  env_API_KEY : option string;
  boundary : string;
  now : string;
  network : AxiosRequestConfig -> Exchange;
  express : Express
}.

(** [res.status(code).json(v)], for the codes the source writes itself. *)
Definition json (code : Z) (v : JS.value) : Response :=
  {| status := code; headers := ∅; body := Json v |}.

(** A handler ends by answering or by calling [next(error)]; [set] holds
    the headers it had set on [res] by then. *)
Inductive Outcome :=
| Sent (r : Response)
| Next (set : Headers) (e : JS.error).

(** *** [res.status(response.status).json({status, headers, data})] *)

(** The envelope relayed for a completed exchange. *)
Definition envelope (response : AxiosResponse) : JS.value :=
  JS.Obj [ ("status", JS.Num (res_status response));
           ("headers", res_headers response);
           ("data", res_data response) ].

(** The statuses that are sent without a body, whatever is given to
    [res.json]: Express empties the body for 204, 205 and 304, and Node
    writes none for an informational status. *)
Definition bodiless (st : Z) : bool :=
  ((100 <=? st)%Z && (st <=? 199)%Z) || (st =? 204)%Z || (st =? 205)%Z || (st =? 304)%Z.

(** Node refuses to write a head with a status outside [100, 999]. *)
Definition valid_status (st : Z) : bool := (100 <=? st)%Z && (st <=? 999)%Z.

Definition invalid_status (st : Z) : JS.error :=
  {| JS.err_class := JS.RangeError;
     JS.err_message := "Invalid status code: " ++ pretty st;
     JS.err_has_body := false |}.

(** The answer that relays a completed exchange. *)
Definition relay (response : AxiosResponse) : Response :=
  {| status := res_status response;
     headers := ∅;
     body := if bodiless (res_status response) then Empty
             else Json (envelope response) |}.

(** The statement as a whole: it throws, inside the [try] of the handler,
    when the status cannot be written. *)
Definition respond (response : AxiosResponse) : Outcome :=
  if valid_status (res_status response) then Sent (relay response)
  else Next ∅ (invalid_status (res_status response)).

(** *** [app.post("/api/forward")] *)

(** The object given to [axios.request] by the handler. *)
Definition forward_config (b : ForwardRequestBody) : AxiosRequestConfig :=
  {| req_url := default EmptyString (targetUrl b);
     req_method := default "POST" (fwd_method b);
     req_headers := default ∅ (fwd_headers b);
     req_data := DataValue (fwd_body b);
     validateStatus := fun _ => true |}.

(** The handler's answer together with the configurations it handed to
    [axios.request], in order. *)
Definition forward_handler (E : Env) (b : ForwardRequestBody)
  : Outcome * list AxiosRequestConfig :=
  if negb (JS.truthy_str (targetUrl b)) then
    (Sent (json 400 (JS.Obj [("error", JS.Str "targetUrl is required")])), [])
  else
    match axios_request (network E) (forward_config b) with
    | inr response => (respond response, [forward_config b])
    | inl error => (Next ∅ error, [forward_config b])
    end.

(** *** [app.post("/api/convert/base64-to-binary")] *)

(** [forward?.url] *)
Definition forward_url (forward : option ConvertForwardConfig) : option string :=
  match forward with
  | Some f => url f
  | None => None
  end.

(** The characters Node accepts in the value of a header: the tab, the
    printable ASCII characters and the characters from 128 to 255. (A
    character above 255 is refused as well; the strings here hold none.) *)
Definition header_char (c : ascii) : bool :=
  let n := N_of_ascii c in
  ((n =? 9) || ((32 <=? n) && (n <=? 126)) || (128 <=? n))%N.

Fixpoint header_value (s : string) : bool :=
  match s with
  | EmptyString => true
  | String c rest => header_char c && header_value rest
  end.

(** The blanks at either end of a value are written out with it, and a
    reader of the header leaves them out of the value. [unpadded] tells that
    a value has none. *)
Definition blank (c : ascii) : bool :=
  Ascii.eqb c " "%char || Ascii.eqb c (ascii_of_nat 9).

Fixpoint ends_blank (s : string) : bool :=
  match s with
  | EmptyString => false
  | String c EmptyString => blank c
  | String _ rest => ends_blank rest
  end.

Definition unpadded (s : string) : bool :=
  match s with
  | EmptyString => true
  | String c _ => negb (blank c) && negb (ends_blank s)
  end.

Definition invalid_char (name : string) : JS.error :=
  {| JS.err_class := JS.TypeError;
     JS.err_message := "Invalid character in header content [" ++ JS.dquote ++
                       name ++ JS.dquote ++ "]";
     JS.err_has_body := false |}.

(** [res.setHeader(name, value)] on the headers set so far: it throws on a
    value with a character that no header may hold. *)
Definition setHeader (name value : string) (set : Headers) : JS.error + Headers :=
  if header_value value then inr (<[name := value]> set)
  else inl (invalid_char name).

(** [`attachment; filename="${fileName}"`] *)
Definition disposition (fileName : string) : string :=
  "attachment; filename=" ++ JS.dquote ++ fileName ++ JS.dquote.

(** [res.send(buffer)] with the headers set so far: the status is 200, and
    a [Content-Type] that is not set, or is empty, is sent as
    [application/octet-stream]. *)
Definition send (set : Headers) (buffer : list Z) : Response :=
  {| status := 200;
     headers := if JS.truthy_str (set !! "Content-Type") then set
                else <["Content-Type" := "application/octet-stream"]> set;
     body := Binary buffer |}.

(** The closing statements of the handler, inside its [try]: two
    [res.setHeader] calls and [res.send(buffer)]. *)
Definition send_file (mimeType fileName : string) (buffer : list Z) : Outcome :=
  match setHeader "Content-Type" mimeType ∅ with
  | inl error => Next ∅ error
  | inr set =>
      match setHeader "Content-Disposition" (disposition fileName) set with
      | inl error => Next set error
      | inr set' => Sent (send set' buffer)
      end
  end.

(** [fileName] and [mimeType] after the defaults of the destructuring. *)
Definition fileName_of (b : ConvertRequestBody) : string :=
  default "file.bin" (fileName b).
Definition mimeType_of (b : ConvertRequestBody) : string :=
  default "application/octet-stream" (mimeType b).

(** [Buffer.from(base64Data, "base64")] *)
Definition buffer_of (b : ConvertRequestBody) : list Z :=
  Base64.decode (default EmptyString (base64Data b)).

(** The multipart form built for the upstream. *)
Definition attachment_form (E : Env) (b : ConvertRequestBody) : FormData :=
  append (FormData_new (boundary E)) "attachment" (buffer_of b)
         (fileName_of b) (mimeType_of b).

(** The object given to [axios.request] by the handler. *)
Definition convert_config (E : Env) (b : ConvertRequestBody)
    (forward : ConvertForwardConfig) : AxiosRequestConfig :=
  {| req_url := default EmptyString (url forward);
     req_method := JS.or_else (cfg_method forward) "POST";
     req_headers := spread (getHeaders (attachment_form E b))
                           (default ∅ (cfg_headers forward));
     req_data := DataForm (attachment_form E b);
     validateStatus := fun _ => true |}.

Definition convert_handler (E : Env) (b : ConvertRequestBody)
  : Outcome * list AxiosRequestConfig :=
  if negb (JS.truthy_str (base64Data b)) then
    (Sent (json 400 (JS.Obj [("error", JS.Str "base64Data is required")])), [])
  else
    match forward b with
    | Some forward =>
        if JS.truthy_str (url forward) then
          match axios_request (network E) (convert_config E b forward) with
          | inr response => (respond response, [convert_config E b forward])
          | inl error => (Next ∅ error, [convert_config E b forward])
          end
        else (send_file (mimeType_of b) (fileName_of b) (buffer_of b), [])
    | None => (send_file (mimeType_of b) (fileName_of b) (buffer_of b), [])
    end.

(** *** The middleware chain *)

Inductive Method := GET | HEAD | POST | PUT | PATCH | DELETE | OPTIONS.

Definition method_name (m : Method) : string :=
  match m with
  | GET => "GET" | HEAD => "HEAD" | POST => "POST" | PUT => "PUT"
  | PATCH => "PATCH" | DELETE => "DELETE" | OPTIONS => "OPTIONS"
  end.

(** What [express.json] makes of the request body: it calls [next(err)], or
    it leaves the parsed value in [req.body] ([{}] when there is nothing to
    parse). *)
Inductive BodyParse :=
| ParseError (e : JS.error)
| ParseOk (v : JS.value).

(** A request: [req_hdrs] holds the headers under the lower-case names
    Node gives them. *)
Record Request := {
  method : Method;
  path : string;
  req_hdrs : Headers;
  parsed : BodyParse
}.

(** [process.env.API_KEY || "NSZoho@8080"] *)
Definition API_KEY (E : Env) : string := JS.or_else (env_API_KEY E) "NSZoho@8080".

Definition unauthorized : Response :=
  json 401 (JS.Obj
    [ ("error", JS.Str "Unauthorized");
      ("message",
       JS.Str "Invalid or missing API key. Please provide valid x-api-key header.") ]).

(** The API-key middleware: [None] when it calls [next()]. *)
Definition api_key_middleware (E : Env) (req : Request) : option Response :=
  if String.eqb (path req) "/health" || String.eqb (path req) "/" then None
  else
    let providedKey := req_hdrs req !! "x-api-key" in
    if negb (JS.truthy_str providedKey)
       || negb (String.eqb (default EmptyString providedKey) (API_KEY E))
    then Some unauthorized
    else None.

(** The two error-handling middlewares, in registration order. *)
Definition json_error_handler (err : JS.error) : option Response :=
  match JS.err_class err with
  | JS.SyntaxError =>
      if JS.err_has_body err then
        Some (json 400 (JS.Obj [ ("error", JS.Str "Invalid JSON in request body");
                                 ("details", JS.Str (JS.err_message err)) ]))
      else None
  | _ => None
  end.

Definition basic_error_handler (err : JS.error) : Response :=
  json 500 (JS.Obj [("error", JS.Str "Internal server error")]).

Definition error_handlers (err : JS.error) : Response :=
  match json_error_handler err with
  | Some r => r
  | None => basic_error_handler err
  end.

(** The answer [r] of an error handler goes out on the response the
    handler had begun, with the headers [set] on it: a [Content-Type] that
    is set and not empty stays in place of the one [res.json] would give,
    and what is sent under it besides the status is left to Express. *)
Definition on_begun (E : Env) (set : Headers) (r : Response) : Response :=
  match set !! "Content-Type" with
  | Some contentType =>
      if String.eqb contentType EmptyString then r
      else {| status := status r;
              headers := fst (late_error (express E) contentType);
              body := snd (late_error (express E) contentType) |}
  | None => r
  end.

Inductive Route := ForwardRoute | ConvertRoute | HealthRoute | TestRoute.

Definition lower_ascii (c : ascii) : ascii :=
  let n := N_of_ascii c in
  if Base64.in_range 65 90 n then ascii_of_N (n + 32) else c.

Fixpoint lower (s : string) : string :=
  match s with
  | EmptyString => EmptyString
  | String c rest => String (lower_ascii c) (lower rest)
  end.

(** Express matches a route path without regard to case and with an
    optional trailing slash. *)
Definition path_matches (pattern p : string) : bool :=
  String.eqb (lower p) pattern || String.eqb (lower p) (pattern ++ "/").

(** The routes in registration order; [app.get] also serves [HEAD]. *)
Definition route (m : Method) (p : string) : option Route :=
  match m with
  | POST =>
      if path_matches "/api/forward" p then Some ForwardRoute
      else if path_matches "/api/convert/base64-to-binary" p then Some ConvertRoute
      else if path_matches "/api/test" p then Some TestRoute
      else None
  | GET | HEAD => if path_matches "/health" p then Some HealthRoute else None
  | _ => None
  end.

(** [req.fresh] as [res.json] consults it on a [GET] or [HEAD] it answers
    with 200: a request without [If-None-Match] is never fresh, one with
    [If-None-Match: *] and neither [Cache-Control] nor [If-Modified-Since]
    always is, and for any other the validators decide. The key in
    [x-api-key] plays no part. *)
Definition fresh (E : Env) (req : Request) : bool :=
  match req_hdrs req !! "if-none-match" with
  | None => false
  | Some noneMatch =>
      if String.eqb noneMatch EmptyString then false
      else if String.eqb noneMatch "*"
              && bool_decide (req_hdrs req !! "cache-control" = None)
              && bool_decide (req_hdrs req !! "if-modified-since" = None)
      then true
      else revalidated (express E) (delete "x-api-key" (req_hdrs req))
  end.

(** [res.json({ status: "ok" })]: a fresh request is answered 304 without
    a body. *)
Definition health_handler (E : Env) (req : Request) : Response :=
  if fresh E req then {| status := 304; headers := ∅; body := Empty |}
  else json 200 (JS.Obj [("status", JS.Str "ok")]).

Definition test_handler (E : Env) (body : JS.value) : Response :=
  json 200 (JS.Obj
    [ ("success", JS.Bool true);
      ("message", JS.Str "Test endpoint received your request!");
      ("receivedBody", body);
      ("bodyType", JS.Str (JS.typeof body));
      ("timestamp", JS.Str (now E)) ]).

(** No route matched: Express answers 404 itself. *)
Definition not_found (req : Request) : Response :=
  {| status := 404; headers := ∅;
     body := Text ("Cannot " ++ method_name (method req) ++ " " ++ path req) |}.

(** The point of the chain at which the fate of the request is settled. *)
Inductive Stage :=
| Preflight
| BodyRejected (e : JS.error)
| KeyRejected (r : Response)
| Routed (rt : Route) (body : JS.value)
| Unrouted.

(** The chain in registration order. [cors()] answers a preflight itself.
    [express.json] calls [next(err)] on a body it cannot parse, which takes
    the request past every ordinary middleware and route to the error
    handlers. Then comes the key check, then the routes. *)
Definition dispatch (E : Env) (req : Request) : Stage :=
  match method req with
  | OPTIONS => Preflight
  | _ =>
      match parsed req with
      | ParseError e => BodyRejected e
      | ParseOk body =>
          match api_key_middleware E req with
          | Some r => KeyRejected r
          | None =>
              match route (method req) (path req) with
              | Some rt => Routed rt body
              | None => Unrouted
              end
          end
      end
  end.

(** An error given to [next] is answered by the error handlers. *)
Definition settle (E : Env) (o : Outcome * list AxiosRequestConfig)
  : Response * list AxiosRequestConfig :=
  match o with
  | (Sent r, calls) => (r, calls)
  | (Next set e, calls) => (on_begun E set (error_handlers e), calls)
  end.

(** The application: the response to a request and the outbound requests
    made for it. The result is [None] for a body that is not of the
    interface its handler declares. *)
Definition app (E : Env) (req : Request)
  : option (Response * list AxiosRequestConfig) :=
  match dispatch E req with
  | Preflight => Some ({| status := 204; headers := ∅; body := Empty |}, [])
  | BodyRejected e => Some (error_handlers e, [])
  | KeyRejected r => Some (r, [])
  | Routed ForwardRoute body =>
      b ← read_ForwardRequestBody body; Some (settle E (forward_handler E b))
  | Routed ConvertRoute body =>
      b ← read_ConvertRequestBody body; Some (settle E (convert_handler E b))
  | Routed HealthRoute _ => Some (health_handler E req, [])
  | Routed TestRoute body => Some (test_handler E body, [])
  | Unrouted => Some (not_found req, [])
  end.

(** *** Forwarded requests *)

(** A request that reaches the convert handler with a non-empty
    [base64Data] and a forward target: [b] is its body and [f] the target. *)
Definition convert_forwards (E : Env) (req : Request)
    (b : ConvertRequestBody) (f : ConvertForwardConfig) : Prop :=
  ∃ v, dispatch E req = Routed ConvertRoute v ∧
       read_ConvertRequestBody v = Some b ∧
       JS.truthy_str (base64Data b) = true ∧
       forward b = Some f ∧
       JS.truthy_str (url f) = true.

(** A request that reaches the generic forward handler with a target. *)
Definition generic_forwards (E : Env) (req : Request) (b : ForwardRequestBody) : Prop :=
  ∃ v, dispatch E req = Routed ForwardRoute v ∧
       read_ForwardRequestBody v = Some b ∧
       JS.truthy_str (targetUrl b) = true.

(** [forwards E req cfg]: the request is forwarded, on either operation,
    and [cfg] is what the handler gives to [axios.request]. *)
Inductive forwards (E : Env) (req : Request) : AxiosRequestConfig → Prop :=
| forwards_convert b f :
    convert_forwards E req b f → forwards E req (convert_config E b f)
| forwards_generic b :
    generic_forwards E req b → forwards E req (forward_config b).

(** The body of a convert request with its forward target removed. *)
Definition without_forward (b : ConvertRequestBody) : ConvertRequestBody :=
  {| base64Data := base64Data b; fileName := fileName b;
     mimeType := mimeType b; forward := None |}.

End Gateway.

(** ** The second variant of the convert handler

    The file also holds an earlier variant of the server, whose convert
    handler forwards the decoded bytes themselves. It shares the types of
    [Gateway]. *)

Module GatewayRaw.
Import Gateway.

(** The object given to [axios.request] by this variant. *)
Definition convert_config (b : ConvertRequestBody) (forward : ConvertForwardConfig)
  : AxiosRequestConfig :=
  {| req_url := default EmptyString (url forward);
     req_method := JS.or_else (cfg_method forward) "POST";
     req_headers :=
       spread (<["Content-Length" := pretty (Z.of_nat (length (buffer_of b)))]>
               (<["Content-Type" := mimeType_of b]> ∅))
              (default ∅ (cfg_headers forward));
     req_data := DataBuffer (buffer_of b);
     validateStatus := fun _ => true |}.

Definition convert_handler (E : Env) (b : ConvertRequestBody)
  : Outcome * list AxiosRequestConfig :=
  if negb (JS.truthy_str (base64Data b)) then
    (Sent (json 400 (JS.Obj [("error", JS.Str "base64Data is required")])), [])
  else
    match forward b with
    | Some forward =>
        if JS.truthy_str (url forward) then
          match axios_request (network E) (convert_config b forward) with
          | inr response => (respond response, [convert_config b forward])
          | inl error => (Next ∅ error, [convert_config b forward])
          end
        else (send_file (mimeType_of b) (fileName_of b) (buffer_of b), [])
    | None => (send_file (mimeType_of b) (fileName_of b) (buffer_of b), [])
    end.

(** The routes of this variant, which has no test endpoint. *)
Definition route (m : Method) (p : string) : option Route :=
  match m with
  | POST =>
      if path_matches "/api/forward" p then Some ForwardRoute
      else if path_matches "/api/convert/base64-to-binary" p then Some ConvertRoute
      else None
  | GET | HEAD => if path_matches "/health" p then Some HealthRoute else None
  | _ => None
  end.

(** Its only error-handling middleware is the basic one. *)
Definition settle (E : Env) (o : Outcome * list AxiosRequestConfig)
  : Response * list AxiosRequestConfig :=
  match o with
  | (Sent r, calls) => (r, calls)
  | (Next set e, calls) => (on_begun E set (basic_error_handler e), calls)
  end.

(** The application of this variant: [cors()], [express.json], the three
    routes and the basic error handler; there is no key check. The generic
    forward handler is the one of [Gateway]. *)
Definition app (E : Env) (req : Request)
  : option (Response * list AxiosRequestConfig) :=
  match method req with
  | OPTIONS => Some ({| status := 204; headers := ∅; body := Empty |}, [])
  | _ =>
      match parsed req with
      | ParseError e => Some (basic_error_handler e, [])
      | ParseOk body =>
          match route (method req) (path req) with
          | Some ForwardRoute =>
              b ← read_ForwardRequestBody body; Some (settle E (forward_handler E b))
          | Some ConvertRoute =>
              b ← read_ConvertRequestBody body; Some (settle E (convert_handler E b))
          | Some HealthRoute => Some (health_handler E req, [])
          | _ => Some (not_found req, [])
          end
      end
  end.

End GatewayRaw.

(** ** The Suitelet: vendor-bill attachments to the gateway *)

Module Suitelet.

(** A loaded file: [fileObj.name], [fileObj.fileType] and
    [fileObj.getContents()]. *)
Record File := {
  name : string;
  fileType : string;
  contents : string
}.

(** The answer of [https.post]. *)
Record ClientResponse := {
  code : Z;
  body : string
}.

(** The platform the script runs on. Posting changes the world outside, so
    [https_post] threads it; the other services are functions.
    [load_error] is the exception that [file.load] or [getContents] throws
    for a file id, if any (a file above the size the platform hands out,
    for one), and [file_load] the file and its contents when they load.
    [access_token] is [respObj.access_token], fetched once before the
    loop. *)
Record Platform (World : Type) := {
  load_error : string -> option JS.error;
  file_load : string -> File;
  https_post : string -> list (string * string) -> string ->
               World -> (JS.error + ClientResponse) * World;
  JSON_parse : string -> JS.error + JS.value;
  JSON_stringify : JS.value -> string;
  toISOString : World -> string;
  zoho_cud_api : string;
  OrganizationID : string;
  access_token : JS.value
}.

Arguments load_error {World}.
Arguments file_load {World}.
Arguments https_post {World}.
Arguments JSON_parse {World}.
Arguments JSON_stringify {World}.
Arguments toISOString {World}.
Arguments zoho_cud_api {World}.
Arguments OrganizationID {World}.
Arguments access_token {World}.

Definition zoho_ID : string := "2950483000000649068".
Definition middlewareUrl : string :=
  "http://51.20.245.218:3000/api/convert/base64-to-binary".
Definition apiKey : string := "NSZoho@8080".

Definition mimeMap : gmap string string :=
  list_to_map
    [ ("PDF", "application/pdf");
      ("PLAINTEXT", "text/plain");
      ("CSV", "text/csv");
      ("XMLDOC", "application/xml");
      ("PNGIMAGE", "image/png");
      ("JPGIMAGE", "image/jpeg");
      ("GIFIMAGE", "image/gif");
      ("TIFFIMAGE", "image/tiff");
      ("BMPIMAGE", "image/bmp");
      ("WORD", "application/msword");
      ("EXCEL", "application/vnd.ms-excel");
      ("ZIP", "application/zip");
      ("GZIP", "application/gzip") ].

Definition getMimeType (nsType : string) : option string := mimeMap !! nsType.

(** The payload posted for one file. *)
Definition payload {World} (P : Platform World) (fileObj : File) (mimeType : string)
  : JS.value :=
  JS.Obj
    [ ("base64Data", JS.Str (contents fileObj));
      ("fileName", JS.Str (name fileObj));
      ("mimeType", JS.Str mimeType);
      ("forward", JS.Obj
         [ ("url", JS.Str (zoho_cud_api P ++ "bills/" ++ zoho_ID ++ "/attachment"
                           ++ OrganizationID P));
           ("method", JS.Str "POST");
           ("headers", JS.Obj
              [ ("Authorization",
                 JS.Str ("Zoho-oauthtoken " ++ JS.to_string (access_token P)));
                ("Accept", JS.Str "*/*") ]) ]) ].

(** The body of the [try] block after [https.post] has answered or thrown:
    the entry pushed on success of the block, or the exception caught. *)
Definition try_block {World} (P : Platform World) (fileObj : File)
    (posted : JS.error + ClientResponse) : JS.error + JS.value :=
  match posted with
  | inl e => inl e
  | inr response =>
      match JSON_parse P (body response) with
      | inl e => inl e
      | inr middlewareResponse =>
          match JS.get middlewareResponse "status",
                JS.get middlewareResponse "data" with
          | inr zohoStatus, inr zohoResponse =>
              let isSuccess :=
                JS.strict_eq_num zohoStatus 200 || JS.strict_eq_num zohoStatus 201 in
              inr (JS.Obj
                [ ("fileName", JS.Str (name fileObj));
                  ("status", JS.Str (if isSuccess then "success" else "failed"));
                  ("middlewareStatus", JS.Num (code response));
                  ("zohoStatus", zohoStatus);
                  ("zohoResponse", zohoResponse);
                  ("message",
                   JS.Str (if isSuccess then "File uploaded successfully to Zoho"
                           else "Zoho upload failed with status: "
                                ++ JS.to_string zohoStatus)) ])
          | inl e, _ => inl e
          | _, inl e => inl e
          end
      end
  end.

(** The entry pushed by the [catch] clause. *)
Definition error_entry (fileObj : File) (e : JS.error) : JS.value :=
  JS.Obj
    [ ("fileName", JS.Str (name fileObj));
      ("status", JS.Str "error");
      ("error", JS.Str (JS.error_toString e));
      ("message", JS.Str "Failed to call middleware or parse response") ].

Definition skipped_entry (fileObj : File) : JS.value :=
  JS.Obj
    [ ("fileName", JS.Str (name fileObj));
      ("status", JS.Str "skipped");
      ("reason", JS.Str ("Unsupported file type: " ++ fileType fileObj)) ].

(** The call [https.post({url, headers, body})] made for one file. *)
Definition post_file {World} (P : Platform World) (fileObj : File) (mimeType : string)
    (w : World) : (JS.error + ClientResponse) * World :=
  https_post P middlewareUrl
    [ ("Content-Type", "application/json"); ("x-api-key", apiKey) ]
    (JSON_stringify P (payload P fileObj mimeType)) w.

(** The callback given to [each], from the file that [file.load] and
    [getContents] returned: it pushes one entry on [results] and returns
    whether the iteration goes on. *)
Definition callback {World} (P : Platform World) (fileId : string)
    (st : list JS.value * World) : bool * (list JS.value * World) :=
  let '(results, w) := st in
  let fileObj := file_load P fileId in
  match getMimeType (fileType fileObj) with
  | None => (true, ((results ++ [skipped_entry fileObj])%list, w))
  | Some mimeType =>
      let '(posted, w') := post_file P fileObj mimeType w in
      match try_block P fileObj posted with
      | inr entry => (true, ((results ++ [entry])%list, w'))
      | inl e => (true, ((results ++ [error_entry fileObj e])%list, w'))
      end
  end.

(** [resultSet.each(callback)]: the callback is called on each result in
    turn for as long as it returns [true]. *)
Fixpoint each {A S : Type} (cb : A -> S -> bool * S) (l : list A) (s : S) : S :=
  match l with
  | [] => s
  | x :: rest =>
      let '(continue, s') := cb x s in
      if continue then each cb rest s' else s'
  end.

(** [onRequest] on search results that all load, from the search results
    (the internal ids of the attached files, in the order of the search) to
    the report written to the response. *)
Definition onRequest {World} (P : Platform World) (found : list string) (w : World)
  : JS.value * World :=
  let '(results, w') := each (callback P) found ([], w) in
  (JS.Obj
     [ ("status", JS.Str "completed");
       ("filesProcessed", JS.Num (Z.of_nat (length results)));
       ("timestamp", JS.Str (toISOString P w'));
       ("results", JS.Arr results) ],
   w').

(** The files of the search that are of a mapped type, each with its MIME
    type, in the order of the search. *)
Definition mapped {World} (P : Platform World) (found : list string)
  : list (File * string) :=
  omap (λ fileId,
          let fileObj := file_load P fileId in
          (λ mimeType, (fileObj, mimeType)) <$> getMimeType (fileType fileObj))
       found.

(** The world after the given files have been posted in turn. *)
Definition posted_all {World} (P : Platform World) (files : list (File * string))
    (w : World) : World :=
  fold_left (λ w fm, snd (post_file P (fst fm) (snd fm) w)) files w.

(** The four states an entry of the report can be in. *)
Definition states : list JS.value :=
  [JS.Str "skipped"; JS.Str "success"; JS.Str "failed"; JS.Str "error"].

(** *** When a file does not load

    [file.load] and [getContents] are the first statements of the callback
    and stand outside its [try]: an exception of theirs leaves the
    callback, [each] and [onRequest], and no report is written. *)

(** One call of the callback by [each]: the exception that leaves it, or
    its result. *)
Definition visit {World} (P : Platform World) (fileId : string)
    (st : list JS.value * World) : JS.error + bool * (list JS.value * World) :=
  match load_error P fileId with
  | Some e => inl e
  | None => inr (callback P fileId st)
  end.

(** [resultSet.each(callback)] with a callback that can throw: the
    exception that ended the iteration, if any, and the state reached. *)
Fixpoint each_raising {A S : Type} (cb : A -> S -> JS.error + bool * S)
    (l : list A) (s : S) : option JS.error * S :=
  match l with
  | [] => (None, s)
  | x :: rest =>
      match cb x s with
      | inl e => (Some e, s)
      | inr (continue, s') => if continue then each_raising cb rest s' else (None, s')
      end
  end.

(** The report written at the end of [onRequest]. *)
Definition finalResponse {World} (P : Platform World) (results : list JS.value)
    (w : World) : JS.value :=
  JS.Obj
    [ ("status", JS.Str "completed");
      ("filesProcessed", JS.Num (Z.of_nat (length results)));
      ("timestamp", JS.Str (toISOString P w));
      ("results", JS.Arr results) ].

(** [onRequest] as a whole: the report it writes, or the exception that
    ended it, and the world it leaves. *)
Definition run {World} (P : Platform World) (found : list string) (w : World)
  : (JS.error + JS.value) * World :=
  match each_raising (visit P) found ([], w) with
  | (Some e, (_, w')) => (inl e, w')
  | (None, (results, w')) => (inr (finalResponse P results w'), w')
  end.

(** The search results that a run reaches: those before the first one that
    does not load. *)
Fixpoint reached {World} (P : Platform World) (found : list string) : list string :=
  match found with
  | [] => []
  | fileId :: rest =>
      match load_error P fileId with
      | Some _ => []
      | None => fileId :: reached P rest
      end
  end.

End Suitelet.

(** ** Concrete requests and environments *)

Module Cases.
Import Gateway.

Definition upstream (st : Z) : AxiosResponse :=
  {| res_status := st;
     res_headers := JS.Obj [("content-type", JS.Str "application/json")];
     res_data := JS.Obj [("code", JS.Num 0)] |}.

(** An Express for the cases below: the validators of a conditional
    request never match, and the JSON of the error handler is sent under
    the type that was left on the response, as it is for [text/plain]. *)
Definition plain : Express :=
  {| revalidated := fun _ => false;
     late_error := fun contentType =>
       ({[ "Content-Type" := contentType ++ "; charset=utf-8" ]},
        Json (JS.Obj [("error", JS.Str "Internal server error")])) |}.

Definition answering (x : Exchange) : Env :=
  {| env_API_KEY := None;
     boundary := "--------------------------630558949178428160028930";
     now := "2025-01-01T00:00:00.000Z";
     network := fun _ => x;
     express := plain |}.

Definition post (p : string) (key : option string) (b : BodyParse) : Request :=
  {| method := POST; path := p;
     req_hdrs := match key with
                 | Some k => {[ "x-api-key" := k ]}
                 | None => ∅
                 end;
     parsed := b |}.

(** The text [Hello, World!] as [test.txt], with the given [forward]. *)
Definition hello (forward : JS.value) : JS.value :=
  JS.Obj [ ("base64Data", JS.Str "SGVsbG8sIFdvcmxkIQ==");
           ("fileName", JS.Str "test.txt");
           ("mimeType", JS.Str "text/plain");
           ("forward", forward) ].

Definition zoho (hdrs : list (string * JS.value)) : JS.value :=
  JS.Obj [ ("url", JS.Str "https://www.zohoapis.com/books/v3/bills/1/attachment");
           ("method", JS.Str "POST");
           ("headers", JS.Obj hdrs) ].

Definition convert_path : string := "/api/convert/base64-to-binary".

Definition authorization : string * JS.value :=
  ("Authorization", JS.Str "Zoho-oauthtoken 1000.abc").

(** The same body and target as the handler reads them. *)
Definition zoho_config (hdrs : Headers) : ConvertForwardConfig :=
  {| url := Some "https://www.zohoapis.com/books/v3/bills/1/attachment";
     cfg_method := Some "POST";
     cfg_headers := Some hdrs |}.

Definition hello_body (forward : option ConvertForwardConfig) : ConvertRequestBody :=
  {| base64Data := Some "SGVsbG8sIFdvcmxkIQ==";
     fileName := Some "test.txt";
     mimeType := Some "text/plain";
     forward := forward |}.

Definition token_only : Headers := {[ "Authorization" := "Zoho-oauthtoken 1000.abc" ]}.

Definition with_content_type : Headers :=
  <[ "content-type" := "application/json" ]> token_only.

(** A convert request carrying the configured key. *)
Definition convert (forward : JS.value) : Request :=
  post convert_path (Some "NSZoho@8080") (ParseOk (hello forward)).

(** A generic forward request carrying the configured key. *)
Definition generic : Request :=
  post "/api/forward" (Some "NSZoho@8080")
    (ParseOk (JS.Obj [ ("targetUrl", JS.Str "https://example.org/hook");
                       ("body", JS.Obj [("n", JS.Num 1)]) ])).

Definition generic_body : ForwardRequestBody :=
  {| targetUrl := Some "https://example.org/hook";
     fwd_method := None; fwd_headers := None;
     fwd_body := JS.Obj [("n", JS.Num 1)] |}.

(** A scripted platform for the Suitelet: the world is the list of answers
    the gateway will give, in order; three files are attached, the second of
    a type that is not mapped. *)
Definition created : Suitelet.ClientResponse :=
  {| Suitelet.code := 201; Suitelet.body := "created" |}.

Definition limited : Suitelet.ClientResponse :=
  {| Suitelet.code := 429; Suitelet.body := "limited" |}.

Definition timeout : JS.error :=
  {| JS.err_class := JS.OtherError "SSS_REQUEST_TIME_EXCEEDED";
     JS.err_message := "The host you are trying to connect to is not responding";
     JS.err_has_body := false |}.

Definition scripted : Suitelet.Platform (list (JS.error + Suitelet.ClientResponse)) :=
  {| Suitelet.load_error := fun _ => None;
     Suitelet.file_load := fun id =>
       if String.eqb id "2"
       then {| Suitelet.name := "song.mp3"; Suitelet.fileType := "MP3";
               Suitelet.contents := "SUQz" |}
       else {| Suitelet.name := "bill-" ++ id ++ ".pdf"; Suitelet.fileType := "PDF";
               Suitelet.contents := "JVBERi0=" |};
     Suitelet.https_post := fun _ _ _ w =>
       match w with
       | x :: rest => (x, rest)
       | [] => (inl timeout, [])
       end;
     Suitelet.JSON_parse := fun s =>
       if String.eqb s "created"
       then inr (JS.Obj [ ("status", JS.Num 201);
                          ("data", JS.Obj [("code", JS.Num 0)]) ])
       else if String.eqb s "limited"
       then inr (JS.Obj [ ("status", JS.Num 429);
                          ("data", JS.Obj [("code", JS.Num 44)]) ])
       else inl {| JS.err_class := JS.SyntaxError;
                   JS.err_message := "Unexpected token < in JSON at position 0";
                   JS.err_has_body := false |};
     Suitelet.JSON_stringify := JS.to_string;
     Suitelet.toISOString := fun _ => "2025-01-01T00:00:00.000Z";
     Suitelet.zoho_cud_api := "https://www.zohoapis.com/books/v3/";
     Suitelet.OrganizationID := "?organization_id=1";
     Suitelet.access_token := JS.Str "1000.abc" |}.

(** The same platform with a second attachment that is too large to be
    loaded. *)
Definition too_big : JS.error :=
  {| JS.err_class := JS.OtherError "SSS_FILE_CONTENT_SIZE_EXCEEDED";
     JS.err_message := "The file content exceeds the maximum allowed size of 10 MB.";
     JS.err_has_body := false |}.

Definition oversized : Suitelet.Platform (list (JS.error + Suitelet.ClientResponse)) :=
  {| Suitelet.load_error := fun id => if String.eqb id "2" then Some too_big else None;
     Suitelet.file_load := Suitelet.file_load scripted;
     Suitelet.https_post := Suitelet.https_post scripted;
     Suitelet.JSON_parse := Suitelet.JSON_parse scripted;
     Suitelet.JSON_stringify := Suitelet.JSON_stringify scripted;
     Suitelet.toISOString := Suitelet.toISOString scripted;
     Suitelet.zoho_cud_api := Suitelet.zoho_cud_api scripted;
     Suitelet.OrganizationID := Suitelet.OrganizationID scripted;
     Suitelet.access_token := Suitelet.access_token scripted |}.

Definition refused : Exchange :=
  Failed (JS.OtherError "AxiosError") "connect ECONNREFUSED 127.0.0.1:443".

(** A request without key whose body the parser rejects, and a preflight. *)
Definition malformed : Request :=
  post "/api/forward" None
    (ParseError {| JS.err_class := JS.SyntaxError;
                   JS.err_message := "Unexpected end of JSON input";
                   JS.err_has_body := true |}).

Definition preflight : Request :=
  {| method := OPTIONS; path := "/api/forward"; req_hdrs := ∅;
     parsed := ParseOk (JS.Obj []) |}.

(** A conditional probe: [GET /health] with [If-None-Match: *]. *)
Definition conditional : Request :=
  {| method := GET; path := "/health";
     req_hdrs := {[ "if-none-match" := "*" ]};
     parsed := ParseOk (JS.Obj []) |}.

(** A convert request under the configured key for the text [Hello!] with
    the given file name and MIME type, and with the given [forward]. *)
Definition named (fileName mimeType : string) (forward : JS.value) : Request :=
  post convert_path (Some "NSZoho@8080")
    (ParseOk (JS.Obj [ ("base64Data", JS.Str "SGVsbG8h");
                       ("fileName", JS.Str fileName);
                       ("mimeType", JS.Str mimeType);
                       ("forward", forward) ])).

(** A file name with a line break in it. *)
Definition broken_name : string :=
  "a" ++ String (ascii_of_nat 10) "b.txt".

End Cases.

(** ** The Suitelet talking to the gateway *)

Module Link.
Import Gateway.

(** The request the gateway's chain sees when a post of the Suitelet
    arrives as it was sent and [express.json] has read its body back: the
    path of [middlewareUrl], the two headers under the lower-case names Node
    gives them, and the payload as parsed body. *)
Definition arriving (payload : JS.value) : Request :=
  {| method := POST;
     path := "/api/convert/base64-to-binary";
     req_hdrs := <["x-api-key" := Suitelet.apiKey]>
                 {[ "content-type" := "application/json" ]};
     parsed := ParseOk payload |}.

(** The origin of [middlewareUrl], which [arriving] leaves out. *)
Definition gateway_origin : string := "http://51.20.245.218:3000".

(** [express.json({ limit: "10mb" })]: a body of more bytes than this is
    refused with an error that is no [SyntaxError]. A text is sent in
    UTF-8, one byte for an ASCII character and two for any other of the
    8-bit characters. *)
Definition json_limit : N := 10485760.

Fixpoint utf8_length (text : string) : N :=
  match text with
  | EmptyString => 0
  | String c rest => ((if N_of_ascii c <? 128 then 1 else 2) + utf8_length rest)%N
  end.

Definition within_limit (text : string) : bool :=
  (utf8_length text <=? json_limit)%N.

Definition too_large : JS.error :=
  {| JS.err_class := JS.OtherError "PayloadTooLargeError";
     JS.err_message := "request entity too large";
     JS.err_has_body := false |}.

(** The request made of the [https.post] of the Suitelet for a file: the
    body is the text [JSON.stringify(payload)], which [express.json] reads
    back when it is within the limit and refuses otherwise. *)
Definition received {World} (P : Suitelet.Platform World)
    (fileObj : Suitelet.File) (mimeType : string) : Request :=
  let payload := Suitelet.payload P fileObj mimeType in
  if within_limit (Suitelet.JSON_stringify P payload) then arriving payload
  else {| method := method (arriving payload);
          path := path (arriving payload);
          req_hdrs := req_hdrs (arriving payload);
          parsed := ParseError too_large |}.

(** The Suitelet receives an answer of the gateway as it was sent: the
    status as [code], and a body that parses to the value given to
    [res.json]. *)
Definition delivered {World} (P : Suitelet.Platform World)
    (resp : Response) (response : Suitelet.ClientResponse) : Prop :=
  Suitelet.code response = status resp ∧
  ∃ v, body resp = Json v ∧
       Suitelet.JSON_parse P (Suitelet.body response) = inr v.

(** The upload URL the Suitelet builds. *)
Definition upload_url {World} (P : Suitelet.Platform World) : string :=
  Suitelet.zoho_cud_api P ++ "bills/" ++ Suitelet.zoho_ID ++ "/attachment"
  ++ Suitelet.OrganizationID P.

(** The forward target and the body that the gateway reads from the
    payload of a file. *)
Definition target_of {World} (P : Suitelet.Platform World) : ConvertForwardConfig :=
  {| url := Some (upload_url P);
     cfg_method := Some "POST";
     cfg_headers :=
       Some (<["Authorization" :=
                 "Zoho-oauthtoken " ++ JS.to_string (Suitelet.access_token P)]>
             (<["Accept" := "*/*"]> ∅)) |}.

Definition body_of {World} (P : Suitelet.Platform World)
    (fileObj : Suitelet.File) (mimeType : string) : ConvertRequestBody :=
  {| base64Data := Some (Suitelet.contents fileObj);
     fileName := Some (Suitelet.name fileObj);
     mimeType := Some mimeType;
     forward := Some (target_of P) |}.

(** A request with its [x-api-key] header set to the configured key. *)
Definition with_key (E : Env) (req : Request) : Request :=
  {| method := method req;
     path := path req;
     req_hdrs := <["x-api-key" := API_KEY E]> (req_hdrs req);
     parsed := parsed req |}.

(** The statuses the gateway answers with of its own accord. *)
Definition own_statuses : list Z := [200; 204; 304; 400; 401; 404; 500].

(** The answers the gateway gives a convert request without reaching the
    upstream: the rejection of the key check, the missing field, and the
    basic error handler. *)
Definition local_answers : list Response :=
  [ unauthorized;
    json 400 (JS.Obj [("error", JS.Str "base64Data is required")]);
    json 500 (JS.Obj [("error", JS.Str "Internal server error")]) ].

(** A platform for the Suitelet that is answered by the gateway: the body
    [201] parses to the envelope relayed for an upstream answer of that
    status, and the body [401] to the rejection of the key check. *)
Definition answered : Suitelet.Platform unit :=
  {| Suitelet.load_error := fun _ => None;
     Suitelet.file_load := fun id =>
       {| Suitelet.name := "bill-" ++ id ++ ".pdf"; Suitelet.fileType := "PDF";
          Suitelet.contents := if String.eqb id "0" then EmptyString else "JVBERi0=" |};
     Suitelet.https_post := fun _ _ _ w =>
       (inr {| Suitelet.code := 201; Suitelet.body := "201" |}, w);
     Suitelet.JSON_parse := fun s =>
       if String.eqb s "201"
       then inr (JS.Obj [ ("status", JS.Num 201);
                          ("headers", res_headers (Cases.upstream 201));
                          ("data", res_data (Cases.upstream 201)) ])
       else if String.eqb s "401"
       then inr (JS.Obj
              [ ("error", JS.Str "Unauthorized");
                ("message",
                 JS.Str "Invalid or missing API key. Please provide valid x-api-key header.") ])
       else inl {| JS.err_class := JS.SyntaxError;
                   JS.err_message := "Unexpected end of JSON input";
                   JS.err_has_body := false |};
     Suitelet.JSON_stringify := JS.to_string;
     Suitelet.toISOString := fun _ => "2025-01-01T00:00:00.000Z";
     Suitelet.zoho_cud_api := "https://www.zohoapis.com/books/v3/";
     Suitelet.OrganizationID := "?organization_id=1";
     Suitelet.access_token := JS.Str "1000.abc" |}.

End Link.

(** ** The decoding primitive *)

Section Base64Facts.
Import Base64.












(** *** Decoding what the encoder wrote *)

Lemma base64_char_sextet (v : Z) :
  sextet v →
  unbase64 (base64_char v) = Some v ∧ Ascii.eqb (base64_char v) "="%char = false.
Proof.
  assert (Forall (λ v, unbase64 (base64_char v) = Some v ∧
                       Ascii.eqb (base64_char v) "="%char = false) (seqZ 0 64)) as H.
  { apply (bool_decide_unpack _). vm_compute. exact I. }
  intros Hv. rewrite Forall_forall in H. apply H, elem_of_seqZ.
  unfold sextet in Hv. lia.
Qed.

Lemma sextets_char (v : Z) (rest : string) :
  sextet v → sextets (String (base64_char v) rest) = v :: sextets rest.
Proof.
  intros [Hu He]%base64_char_sextet. simpl. by rewrite He, Hu.
Qed.

(** The sextets cut from bytes are sextets. *)
Lemma sextets_of_bytes (x y : Z) :
  byte x → byte y →
  sextet (sextet1 x) ∧ sextet (sextet2 x y) ∧ sextet (sextet3 x y) ∧
  sextet (sextet4 x).
Proof.
  assert (Forall (λ x, Forall (λ y,
            0 ≤ sextet1 x < 64 ∧ 0 ≤ sextet2 x y < 64 ∧
            0 ≤ sextet3 x y < 64 ∧ 0 ≤ sextet4 x < 64)
            (seqZ 0 256)) (seqZ 0 256)) as H.
  { apply (bool_decide_unpack _). vm_compute. exact I. }
  intros Hx Hy. rewrite Forall_forall in H. specialize (H x).
  rewrite Forall_forall in H. apply H; apply elem_of_seqZ; unfold byte in *; lia.
Qed.

(** The first and the last byte of a group are recovered from two
    neighbouring bytes. *)
Lemma group_outer (x y : Z) :
  byte x → byte y →
  byte1 (sextet1 x) (sextet2 x y) = x ∧ byte3 (sextet3 x y) (sextet4 y) = y.
Proof.
  assert (Forall (λ x, Forall (λ y,
            byte1 (sextet1 x) (sextet2 x y) = x ∧
            byte3 (sextet3 x y) (sextet4 y) = y)
            (seqZ 0 256)) (seqZ 0 256)) as H.
  { apply (bool_decide_unpack _). vm_compute. exact I. }
  intros Hx Hy. rewrite Forall_forall in H. specialize (H x).
  rewrite Forall_forall in H. apply H; apply elem_of_seqZ; unfold byte in *; lia.
Qed.

(** The middle byte depends on its neighbours only through two bits of
    each. *)
Lemma group_middle (x y z : Z) :
  byte x → byte y → byte z →
  byte2 (sextet2 x y) (sextet3 y z) = y.
Proof.
  assert (Forall (λ t, Forall (λ y, Forall (λ u,
            byte2 (Z.lor (Z.shiftl t 4) (Z.shiftr y 4))
                  (Z.lor (Z.shiftl (Z.land y 15) 2) u) = y)
            (seqZ 0 4)) (seqZ 0 256)) (seqZ 0 4)) as H.
  { apply (bool_decide_unpack _). vm_compute. exact I. }
  assert (Forall (λ x, 0 ≤ Z.land x 3 < 4 ∧ 0 ≤ Z.shiftr x 6 < 4) (seqZ 0 256)) as Hr.
  { apply (bool_decide_unpack _). vm_compute. exact I. }
  intros Hx Hy Hz. unfold byte in *.
  rewrite Forall_forall in Hr.
  destruct (Hr x) as [Ht _]; [apply elem_of_seqZ; lia|].
  destruct (Hr z) as [_ Hu]; [apply elem_of_seqZ; lia|].
  rewrite Forall_forall in H. specialize (H (Z.land x 3)).
  rewrite Forall_forall in H. specialize (H ltac:(apply elem_of_seqZ; lia) y).
  rewrite Forall_forall in H.
  apply (H ltac:(apply elem_of_seqZ; lia) (Z.shiftr z 6)).
  apply elem_of_seqZ; lia.
Qed.

Lemma byte_0 : byte 0.
Proof. unfold byte. lia. Qed.

(** Decoding the encoding of a sequence of bytes gives the bytes back. *)
Lemma decode_encode (bs : list Z) : Forall byte bs → decode (encode bs) = bs.
Proof.
  assert (∀ n bs, (length bs ≤ n)%nat → Forall byte bs → decode (encode bs) = bs)
    as H.
  { clear bs. induction n as [|n IH]; intros bs Hn Hbs.
    - destruct bs; [done | simpl in Hn; lia].
    - destruct bs as [|x [|y [|z bs]]]; [done| | |]; rewrite ?Forall_cons in Hbs.
      + destruct Hbs as (Hx & _).
        destruct (sextets_of_bytes x 0 Hx byte_0) as (S1 & S2 & _ & _).
        destruct (group_outer x 0 Hx byte_0) as (B1 & _).
        unfold decode. cbn [encode].
        rewrite (sextets_char _ _ S1), (sextets_char _ _ S2).
        cbn. by rewrite B1.
      + destruct Hbs as (Hx & Hy & _).
        destruct (sextets_of_bytes x y Hx Hy) as (S1 & S2 & _ & _).
        destruct (sextets_of_bytes y 0 Hy byte_0) as (_ & _ & S3 & _).
        destruct (group_outer x y Hx Hy) as (B1 & _).
        pose proof (group_middle x y 0 Hx Hy byte_0) as B2.
        unfold decode. cbn [encode].
        rewrite (sextets_char _ _ S1), (sextets_char _ _ S2), (sextets_char _ _ S3).
        cbn. by rewrite B1, B2.
      + destruct Hbs as (Hx & Hy & Hz & Hbs).
        destruct (sextets_of_bytes x y Hx Hy) as (S1 & S2 & _ & _).
        destruct (sextets_of_bytes y z Hy Hz) as (_ & _ & S3 & _).
        destruct (sextets_of_bytes z 0 Hz byte_0) as (_ & _ & _ & S4).
        destruct (group_outer x y Hx Hy) as (B1 & _).
        destruct (group_outer y z Hy Hz) as (_ & B3).
        pose proof (group_middle x y z Hx Hy Hz) as B2.
        unfold decode. cbn [encode].
        rewrite (sextets_char _ _ S1), (sextets_char _ _ S2),
                (sextets_char _ _ S3), (sextets_char _ _ S4).
        change (pack (?a :: ?b :: ?c :: ?d :: ?l))
          with (byte1 a b :: byte2 b c :: byte3 c d :: pack l).
        rewrite B1, B2, B3. f_equal. f_equal. f_equal.
        apply IH; [simpl in Hn; lia | done]. }
  by apply (H (length bs)).
Qed.

(** A character that is neither a base64 character nor the padding
    character is passed over, wherever it stands. *)
Lemma sextets_skip (p r : string) (c : ascii) :
  unbase64 c = None → c ≠ "="%char →
  sextets (p ++ String c r) = sextets (p ++ r).
Proof.
  intros Hc Hne. induction p as [|c' p IH]; simpl.
  - destruct (Ascii.eqb_spec c "="%char); [done|]. by rewrite Hc.
  - destruct (Ascii.eqb c' "="%char); [done|].
    destruct (unbase64 c'); by rewrite IH.
Qed.

Lemma decode_skip (p r : string) (c : ascii) :
  unbase64 c = None → c ≠ "="%char →
  decode (p ++ String c r) = decode (p ++ r).
Proof. intros Hc Hne. unfold decode. by rewrite sextets_skip. Qed.

Lemma low_bytes_app (us vs : list N) :
  low_bytes (us ++ vs) = low_bytes us ++ low_bytes vs.
Proof.
  unfold low_bytes. induction us as [|u us IH]; simpl; [done|]. by rewrite IH.
Qed.

Example encode_hello : encode (bytes_of "Hello, World!") = "SGVsbG8sIFdvcmxkIQ==".
Proof. reflexivity. Qed.

(** The payload [SGVsbG8sIFdvcmxkIQ==] is the text [Hello, World!]. *)
Example decode_hello : decode "SGVsbG8sIFdvcmxkIQ==" = bytes_of "Hello, World!".
Proof. reflexivity. Qed.

(** Characters outside the alphabet do not stop the decoding, and a
    trailing group may lack its padding. *)
Example decode_lenient :
  decode "SGVs*bG8h" = bytes_of "Hello!" ∧
  decode "SGVsbG8" = bytes_of "Hello" ∧
  decode "!!!!" = [].
Proof. repeat split. Qed.

End Base64Facts.

(** * Properties *)

(** ** Values *)

Lemma truthy_str_Some (s : string) :
  JS.truthy_str (Some s) = true ↔ s ≠ EmptyString.
Proof.
  unfold JS.truthy_str. rewrite negb_true_iff. split.
  - intros H ->. discriminate.
  - intros H. apply String.eqb_neq. exact H.
Qed.

Lemma truthy_str_false (o : option string) :
  JS.truthy_str o = false ↔ o = None ∨ o = Some EmptyString.
Proof.
  destruct o as [s|]; simpl.
  - rewrite negb_false_iff, String.eqb_eq. split.
    + intros ->. by right.
    + intros [?| [= ->]]; done.
  - split; [by left | done].
Qed.

Lemma or_else_nonempty (o : option string) (d : string) :
  d ≠ EmptyString → JS.or_else o d ≠ EmptyString.
Proof.
  intros Hd. unfold JS.or_else. destruct o as [s|]; [|done].
  destruct (String.eqb s EmptyString) eqn:Hs; [done|].
  by apply String.eqb_neq.
Qed.

(** ** The gateway *)

Section GatewayFacts.
Import Gateway.

Variable E : Env.

(** The configured key is never the empty string. *)
Lemma API_KEY_nonempty : API_KEY E ≠ EmptyString.
Proof. unfold API_KEY. by apply or_else_nonempty. Qed.

(** The key check lets a request through exactly when its path is exempt or
    its [x-api-key] header is the configured key. *)
Lemma api_key_middleware_next (req : Request) :
  api_key_middleware E req = None ↔
  path req = "/health" ∨ path req = "/" ∨ req_hdrs req !! "x-api-key" = Some (API_KEY E).
Proof.
  unfold api_key_middleware.
  destruct (String.eqb_spec (path req) "/health") as [->|Hh]; simpl;
    [split; [by left | done]|].
  destruct (String.eqb_spec (path req) "/") as [->|Hr]; simpl;
    [split; [by right; left | done]|].
  destruct (req_hdrs req !! "x-api-key") as [k|] eqn:Hk; simpl.
  - destruct (String.eqb_spec k EmptyString) as [->|Hne]; simpl.
    + split; [done|]. intros [?|[?|[= Heq]]]; try done.
      by destruct API_KEY_nonempty.
    + destruct (String.eqb_spec k (API_KEY E)) as [->|Hkey]; simpl.
      * split; [intros _; by right; right | done].
      * split; [done|]. intros [?|[?|[= ?]]]; done.
  - split; [done|]. intros [?|[?|?]]; done.
Qed.

Lemma api_key_middleware_rejects (req : Request) (r : Response) :
  api_key_middleware E req = Some r → r = unauthorized.
Proof.
  unfold api_key_middleware.
  repeat match goal with |- context [if ?c then _ else _] => destruct c end;
    congruence.
Qed.

(** The chain hands a request to a handler exactly when it is no preflight,
    its body parsed, the key check let it through and a route matched. *)
Lemma dispatch_routed (req : Request) (rt : Route) (v : JS.value) :
  dispatch E req = Routed rt v ↔
  method req ≠ OPTIONS ∧ parsed req = ParseOk v ∧
  api_key_middleware E req = None ∧ route (method req) (path req) = Some rt.
Proof.
  unfold dispatch. split.
  - intros H. destruct (method req) eqn:Hm; try discriminate;
      destruct (parsed req); try discriminate;
      destruct (api_key_middleware E req); try discriminate;
      destruct (route _ (path req)); try discriminate;
      injection H as -> ->; done.
  - intros (Hm & -> & -> & Hr).
    destruct (method req); try done; by rewrite Hr.
Qed.

Lemma app_convert (req : Request) (v : JS.value) (b : ConvertRequestBody) :
  dispatch E req = Routed ConvertRoute v →
  read_ConvertRequestBody v = Some b →
  app E req = Some (settle E (convert_handler E b)).
Proof. intros Hd Hr. unfold app. rewrite Hd. simpl. by rewrite Hr. Qed.

Lemma app_forward (req : Request) (v : JS.value) (b : ForwardRequestBody) :
  dispatch E req = Routed ForwardRoute v →
  read_ForwardRequestBody v = Some b →
  app E req = Some (settle E (forward_handler E b)).
Proof. intros Hd Hr. unfold app. rewrite Hd. simpl. by rewrite Hr. Qed.

(** [validateStatus] accepts every status, so a completed exchange always
    resolves. *)
Lemma axios_request_completed (cfg : AxiosRequestConfig) (r : AxiosResponse) :
  (∀ st, validateStatus cfg st = true) →
  network E cfg = Completed r →
  axios_request (network E) cfg = inr r.
Proof. intros Hv H. unfold axios_request. by rewrite H, Hv. Qed.

Lemma axios_request_failed (cfg : AxiosRequestConfig) cls message :
  network E cfg = Failed cls message →
  axios_request (network E) cfg =
    inl {| JS.err_class := cls; JS.err_message := message; JS.err_has_body := false |}.
Proof. intros H. unfold axios_request. by rewrite H. Qed.

(** An error without a [body] property falls through the JSON error handler
    to the basic one. *)
Lemma error_handlers_no_body (err : JS.error) :
  JS.err_has_body err = false →
  error_handlers err = json 500 (JS.Obj [("error", JS.Str "Internal server error")]).
Proof.
  intros H. unfold error_handlers, json_error_handler. rewrite H.
  by destruct (JS.err_class err).
Qed.

(** A missing or empty required field is answered 400 and nothing is sent
    out. *)
Lemma convert_handler_missing (b : ConvertRequestBody) :
  base64Data b = None ∨ base64Data b = Some EmptyString →
  convert_handler E b =
    (Sent (json 400 (JS.Obj [("error", JS.Str "base64Data is required")])), []).
Proof.
  intros H%truthy_str_false. unfold convert_handler. by rewrite H.
Qed.

Lemma forward_handler_missing (b : ForwardRequestBody) :
  targetUrl b = None ∨ targetUrl b = Some EmptyString →
  forward_handler E b =
    (Sent (json 400 (JS.Obj [("error", JS.Str "targetUrl is required")])), []).
Proof.
  intros H%truthy_str_false. unfold forward_handler. by rewrite H.
Qed.

(** The convert handler on a body without a usable forward target. *)
Lemma convert_handler_direct (b : ConvertRequestBody) :
  JS.truthy_str (base64Data b) = true →
  JS.truthy_str (forward_url (forward b)) = false →
  convert_handler E b =
    (send_file (mimeType_of b) (fileName_of b) (buffer_of b), []).
Proof.
  intros Hb Hu. unfold convert_handler. rewrite Hb. simpl.
  destruct (forward b) as [f|]; [|done].
  simpl in Hu. by rewrite Hu.
Qed.

(** The convert handler on a body with a forward target. *)
Lemma convert_handler_forwarding (b : ConvertRequestBody) (f : ConvertForwardConfig) :
  JS.truthy_str (base64Data b) = true →
  forward b = Some f →
  JS.truthy_str (url f) = true →
  convert_handler E b =
    match axios_request (network E) (convert_config E b f) with
    | inr response => (respond response, [convert_config E b f])
    | inl error => (Next ∅ error, [convert_config E b f])
    end.
Proof.
  intros Hb Hf Hu. unfold convert_handler. by rewrite Hb, Hf, Hu.
Qed.

Lemma forward_handler_forwarding (b : ForwardRequestBody) :
  JS.truthy_str (targetUrl b) = true →
  forward_handler E b =
    match axios_request (network E) (forward_config b) with
    | inr response => (respond response, [forward_config b])
    | inl error => (Next ∅ error, [forward_config b])
    end.
Proof. intros Hb. unfold forward_handler. by rewrite Hb. Qed.

(** An error given to [next] before any header was set is answered by the
    error handlers as they are. *)
Lemma on_begun_empty (r : Response) : on_begun E ∅ r = r.
Proof. unfold on_begun. by rewrite lookup_empty. Qed.

(** Whatever the response the handler had begun, the status is the one the
    error handler chose. *)
Lemma on_begun_status (set : Headers) (r : Response) :
  status (on_begun E set r) = status r.
Proof.
  unfold on_begun. destruct (set !! "Content-Type") as [ct|]; [|done].
  by destruct (String.eqb ct EmptyString).
Qed.

(** *** Header values *)

Lemma header_value_app (s t : string) :
  header_value (s ++ t) = header_value s && header_value t.
Proof.
  induction s as [|c s IH]; simpl; [done|]. by rewrite IH, andb_assoc.
Qed.

(** The header built around a file name is valid exactly when the file
    name is. *)
Lemma header_value_disposition (fileName : string) :
  header_value (disposition fileName) = header_value fileName.
Proof.
  unfold disposition. rewrite !header_value_app.
  change (header_value "attachment; filename=") with true.
  change (header_value JS.dquote) with true.
  simpl. by rewrite andb_true_r.
Qed.

(** The three ways the closing statements of the convert handler end. *)
Lemma send_file_sent (mimeType fileName : string) (buffer : list Z) :
  header_value mimeType = true → header_value fileName = true →
  send_file mimeType fileName buffer =
    Sent {| status := 200;
            headers := <["Content-Disposition" := disposition fileName]>
                       (<["Content-Type" :=
                            JS.or_else (Some mimeType) "application/octet-stream"]> ∅);
            body := Binary buffer |}.
Proof.
  intros Hm Hf. unfold send_file, setHeader.
  rewrite Hm, header_value_disposition, Hf. unfold send. f_equal.
  rewrite lookup_insert_ne by done. rewrite lookup_insert_eq. simpl.
  destruct (String.eqb_spec mimeType EmptyString) as [->|Hne]; simpl; [|done].
  by f_equal.
Qed.

Lemma send_file_next (mimeType fileName : string) (buffer : list Z) :
  header_value mimeType = false ∨ header_value fileName = false →
  ∃ set e, send_file mimeType fileName buffer = Next set e ∧
           JS.err_class e = JS.TypeError ∧ JS.err_has_body e = false.
Proof.
  intros H. unfold send_file, setHeader.
  destruct (header_value mimeType) eqn:Hm.
  - destruct H as [?|Hf]; [done|]. rewrite header_value_disposition, Hf.
    by eexists _, _.
  - by eexists _, _.
Qed.

Lemma send_file_cases (mimeType fileName : string) (buffer : list Z) :
  (header_value mimeType = true ∧ header_value fileName = true ∧
   ∃ r, send_file mimeType fileName buffer = Sent r ∧ status r = 200) ∨
  ((header_value mimeType = false ∨ header_value fileName = false) ∧
   ∃ set e, send_file mimeType fileName buffer = Next set e ∧
            JS.err_has_body e = false).
Proof.
  destruct (header_value mimeType) eqn:Hm, (header_value fileName) eqn:Hf.
  - left. split; [done|]. split; [done|].
    rewrite (send_file_sent _ _ _ Hm Hf). by eexists.
  - right. split; [by right|].
    destruct (send_file_next mimeType fileName buffer) as (set & e & -> & _ & He);
      [by right | by eexists _, _].
  - right. split; [by left|].
    destruct (send_file_next mimeType fileName buffer) as (set & e & -> & _ & He);
      [by left | by eexists _, _].
  - right. split; [by left|].
    destruct (send_file_next mimeType fileName buffer) as (set & e & -> & _ & He);
      [by left | by eexists _, _].
Qed.

(** *** Relayed answers *)

Lemma valid_status_spec (st : Z) : valid_status st = true ↔ (100 ≤ st ≤ 999)%Z.
Proof. unfold valid_status. rewrite andb_true_iff, !Z.leb_le. done. Qed.

Lemma respond_valid (r : AxiosResponse) :
  (100 ≤ res_status r ≤ 999)%Z → respond r = Sent (relay r).
Proof. intros H%valid_status_spec. unfold respond. by rewrite H. Qed.

Lemma respond_invalid (r : AxiosResponse) :
  ¬ (100 ≤ res_status r ≤ 999)%Z →
  respond r = Next ∅ (invalid_status (res_status r)).
Proof.
  intros H. unfold respond.
  destruct (valid_status (res_status r)) eqn:Hv; [|done].
  by apply valid_status_spec in Hv.
Qed.

Lemma bodiless_spec (st : Z) :
  bodiless st = true ↔ (100 ≤ st ≤ 199)%Z ∨ st = 204 ∨ st = 205 ∨ st = 304.
Proof.
  unfold bodiless. rewrite !orb_true_iff, andb_true_iff, !Z.leb_le, !Z.eqb_eq.
  tauto.
Qed.

Lemma relay_body (r : AxiosResponse) :
  (200 ≤ res_status r)%Z → res_status r ≠ 204 → res_status r ≠ 205 →
  res_status r ≠ 304 →
  body (relay r) = Json (envelope r).
Proof.
  intros H1 H2 H3 H4. unfold relay. simpl.
  destruct (bodiless (res_status r)) eqn:Hb; [|done].
  apply bodiless_spec in Hb. lia.
Qed.

Lemma relay_bare (r : AxiosResponse) :
  res_status r = 204 ∨ res_status r = 304 → body (relay r) = Empty.
Proof.
  intros H. unfold relay. simpl.
  destruct (bodiless (res_status r)) eqn:Hb; [done|].
  apply not_true_iff_false in Hb. destruct Hb. apply bodiless_spec. lia.
Qed.

Lemma app_convert_forwards (req : Request) b f :
  convert_forwards E req b f →
  app E req =
    Some (settle E match axios_request (network E) (convert_config E b f) with
                   | inr response => (respond response, [convert_config E b f])
                   | inl error => (Next ∅ error, [convert_config E b f])
                   end).
Proof.
  intros (v & Hd & Hr & Hb & Hf & Hu).
  rewrite (app_convert req v b Hd Hr).
  by rewrite (convert_handler_forwarding b f Hb Hf Hu).
Qed.

Lemma app_generic_forwards (req : Request) b :
  generic_forwards E req b →
  app E req =
    Some (settle E match axios_request (network E) (forward_config b) with
                   | inr response => (respond response, [forward_config b])
                   | inl error => (Next ∅ error, [forward_config b])
                   end).
Proof.
  intros (v & Hd & Hr & Hb).
  rewrite (app_forward req v b Hd Hr).
  by rewrite (forward_handler_forwarding b Hb).
Qed.

(** What a forwarded request is answered, by what became of the exchange. *)
Lemma app_forwards (req : Request) (cfg : AxiosRequestConfig) :
  forwards E req cfg →
  app E req =
    Some (settle E match axios_request (network E) cfg with
                   | inr response => (respond response, [cfg])
                   | inl error => (Next ∅ error, [cfg])
                   end).
Proof.
  intros [b f H | b H];
    [apply (app_convert_forwards req b f H) | apply (app_generic_forwards req b H)].
Qed.

(** The outbound requests of an outcome are those of the handler. *)
Lemma settle_calls (o : Outcome * list AxiosRequestConfig) :
  snd (settle E o) = snd o.
Proof. by destruct o as [[r|set e] calls]. Qed.

(** Whatever the exchange, a forwarded request makes exactly the one
    outbound request. *)
Lemma forwards_calls (req : Request) (cfg : AxiosRequestConfig) :
  forwards E req cfg → snd <$> app E req = Some [cfg].
Proof.
  intros H. rewrite (app_forwards req cfg H). simpl. rewrite settle_calls.
  by destruct (axios_request _ _).
Qed.

Lemma forwards_validateStatus (req : Request) (cfg : AxiosRequestConfig) :
  forwards E req cfg → ∀ st, validateStatus cfg st = true.
Proof. by intros [b f H | b H] st. Qed.

(** A forwarded request whose exchange completes with a status that can be
    written is answered with the relayed answer. *)
Lemma app_forwards_completed
    (req : Request) (cfg : AxiosRequestConfig) (r : AxiosResponse) :
  forwards E req cfg →
  network E cfg = Completed r →
  (100 ≤ res_status r ≤ 999)%Z →
  app E req = Some (relay r, [cfg]).
Proof.
  intros Hf Hn Hst. rewrite (app_forwards req cfg Hf).
  rewrite (axios_request_completed cfg r (forwards_validateStatus req cfg Hf) Hn).
  by rewrite (respond_valid r Hst).
Qed.

(** Claim C2, as the code has it. When a request is forwarded, on the
    convert operation or on the generic forward operation, and the upstream
    answers with a response [r] of any status from 200 to 999, 2xx or not,
    the gateway answers with the status of [r]. For a status other than
    204, 205 and 304 the body is the JSON envelope holding that status and
    the headers and data of [r]; for 204 and 304 the answer goes out
    without a body. The answer is never the one of the local error
    handler. *)
Theorem C2_upstream_status_relayed
    (req : Request) (cfg : AxiosRequestConfig) (r : AxiosResponse) :
  forwards E req cfg →
  network E cfg = Completed r →
  (200 ≤ res_status r ≤ 999)%Z →
  ∃ resp,
    app E req = Some (resp, [cfg]) ∧
    status resp = res_status r ∧
    (res_status r ≠ 204 → res_status r ≠ 205 → res_status r ≠ 304 →
     body resp = Json (JS.Obj [ ("status", JS.Num (res_status r));
                                ("headers", res_headers r);
                                ("data", res_data r) ])) ∧
    (res_status r = 204 ∨ res_status r = 304 → body resp = Empty) ∧
    ∀ err, resp ≠ basic_error_handler err.
Proof.
  intros Hf Hn Hst. exists (relay r).
  split; [apply app_forwards_completed; [done | done | lia]|]. split; [done|].
  split; [apply relay_body; lia|]. split; [apply relay_bare|].
  intros err Heq.
  assert (res_status r = 500) as H500 by (by apply (f_equal status) in Heq).
  apply (f_equal body) in Heq. rewrite relay_body in Heq by lia.
  unfold envelope in Heq. simpl in Heq. discriminate.
Qed.

(** Claim C7. When a request is forwarded and the exchange cannot be
    completed (the failure of class [cls] with message [message]), the
    gateway answers 500 with exactly the body
    [{error: "Internal server error"}], whatever the failure was. *)
Theorem C7_transport_failure_generic_500
    (req : Request) (cfg : AxiosRequestConfig) cls message :
  forwards E req cfg →
  network E cfg = Failed cls message →
  app E req =
    Some ({| status := 500; headers := ∅;
             body := Json (JS.Obj [("error", JS.Str "Internal server error")]) |},
          [cfg]).
Proof.
  intros Hf Hn. pose proof (axios_request_failed cfg cls message Hn) as Hax.
  rewrite (app_forwards req cfg Hf), Hax. simpl.
  by rewrite on_begun_empty, error_handlers_no_body.
Qed.

(** The answer on the direct path of the convert handler, when the file
    name and the MIME type can stand in a header. *)
Lemma app_direct (req : Request) (v : JS.value) (b : ConvertRequestBody) :
  dispatch E req = Routed ConvertRoute v →
  read_ConvertRequestBody v = Some b →
  JS.truthy_str (base64Data b) = true →
  JS.truthy_str (forward_url (forward b)) = false →
  header_value (mimeType_of b) = true →
  header_value (fileName_of b) = true →
  app E req =
    Some ({| status := 200;
             headers := <["Content-Disposition" := disposition (fileName_of b)]>
                        (<["Content-Type" :=
                             JS.or_else (mimeType b) "application/octet-stream"]> ∅);
             body := Binary (buffer_of b) |}, []).
Proof.
  intros Hd Hr Hb Hu Hm Hf.
  rewrite (app_convert req v b Hd Hr), (convert_handler_direct b Hb Hu).
  rewrite (send_file_sent _ _ _ Hm Hf). simpl. do 4 f_equal.
  unfold mimeType_of. by destruct (mimeType b).
Qed.

(** On the same path, a file name or a MIME type that cannot stand in a
    header is answered 500, and nothing is sent out. *)
Lemma app_direct_invalid (req : Request) (v : JS.value) (b : ConvertRequestBody) :
  dispatch E req = Routed ConvertRoute v →
  read_ConvertRequestBody v = Some b →
  JS.truthy_str (base64Data b) = true →
  JS.truthy_str (forward_url (forward b)) = false →
  header_value (mimeType_of b) = false ∨ header_value (fileName_of b) = false →
  ∃ resp, app E req = Some (resp, []) ∧ status resp = 500.
Proof.
  intros Hd Hr Hb Hu Hbad.
  rewrite (app_convert req v b Hd Hr), (convert_handler_direct b Hb Hu).
  destruct (send_file_next (mimeType_of b) (fileName_of b) (buffer_of b) Hbad)
    as (set & e & -> & _ & He).
  eexists. split; [done|]. simpl.
  by rewrite on_begun_status, (error_handlers_no_body e He).
Qed.

(** Claim C8, as the code has it. A convert request with a non-empty
    [base64Data] and no [forward] makes no outbound request. When
    [mimeType] and [fileName] (after their defaults) hold only characters
    that a header value may hold, it is answered 200 with the decoded bytes
    as body, a [Content-Disposition] header
    [attachment; filename="<fileName>"] ([file.bin] when absent) and, for a
    [mimeType] without blanks at its ends, a [Content-Type] header equal to
    [mimeType] ([application/octet-stream] when absent or empty); otherwise
    it is answered 500. *)
Theorem C8_direct_download
    (req : Request) (v : JS.value) (b : ConvertRequestBody) (s : string) :
  dispatch E req = Routed ConvertRoute v →
  read_ConvertRequestBody v = Some b →
  base64Data b = Some s →
  s ≠ EmptyString →
  forward b = None →
  (header_value (default "application/octet-stream" (mimeType b)) = true →
   header_value (default "file.bin" (fileName b)) = true →
   ∃ resp,
     app E req = Some (resp, []) ∧
     status resp = 200 ∧
     body resp = Binary (Base64.decode s) ∧
     (unpadded (default "application/octet-stream" (mimeType b)) = true →
      headers resp !! "Content-Type" =
        Some (JS.or_else (mimeType b) "application/octet-stream")) ∧
     headers resp !! "Content-Disposition" =
       Some ("attachment; filename=" ++ JS.dquote ++
             default "file.bin" (fileName b) ++ JS.dquote)) ∧
  (header_value (default "application/octet-stream" (mimeType b)) = false ∨
   header_value (default "file.bin" (fileName b)) = false →
   ∃ resp, app E req = Some (resp, []) ∧ status resp = 500).
Proof.
  intros Hd Hr Hs Hne Hf.
  assert (JS.truthy_str (base64Data b) = true) as Hb
    by (rewrite Hs; by apply truthy_str_Some).
  assert (JS.truthy_str (forward_url (forward b)) = false) as Hu
    by (by rewrite Hf).
  split.
  - intros Hm Hn. eexists. split; [by apply (app_direct req v b)|].
    unfold buffer_of. rewrite Hs. simpl. repeat split.
  - by apply (app_direct_invalid req v b).
Qed.

(** Claim C10, as the code has it. A convert request whose [forward]
    object is present but whose [forward.url] is absent or empty makes no
    outbound request and is handled as if [forward] were absent: with a
    [mimeType] and a [fileName] that a header value may hold it is answered
    200 with the decoded bytes and the [Content-Type] and
    [Content-Disposition] headers of the direct path. *)
Theorem C10_forward_without_url
    (req : Request) (v : JS.value) (b : ConvertRequestBody)
    (s : string) (f : ConvertForwardConfig) :
  dispatch E req = Routed ConvertRoute v →
  read_ConvertRequestBody v = Some b →
  base64Data b = Some s →
  s ≠ EmptyString →
  forward b = Some f →
  url f = None ∨ url f = Some EmptyString →
  convert_handler E b = convert_handler E (without_forward b) ∧
  (∃ resp, app E req = Some (resp, [])) ∧
  (header_value (default "application/octet-stream" (mimeType b)) = true →
   header_value (default "file.bin" (fileName b)) = true →
   ∃ resp,
     app E req = Some (resp, []) ∧
     status resp = 200 ∧
     body resp = Binary (Base64.decode s) ∧
     (unpadded (default "application/octet-stream" (mimeType b)) = true →
      headers resp !! "Content-Type" =
        Some (JS.or_else (mimeType b) "application/octet-stream")) ∧
     headers resp !! "Content-Disposition" =
       Some ("attachment; filename=" ++ JS.dquote ++
             default "file.bin" (fileName b) ++ JS.dquote)).
Proof.
  intros Hd Hr Hs Hne Hf Hu.
  assert (JS.truthy_str (base64Data b) = true) as Hb
    by (rewrite Hs; by apply truthy_str_Some).
  assert (JS.truthy_str (forward_url (forward b)) = false) as Hfu
    by (rewrite Hf; simpl; by apply truthy_str_false).
  split; [|split].
  - rewrite (convert_handler_direct b Hb Hfu).
    by rewrite (convert_handler_direct (without_forward b)).
  - rewrite (app_convert req v b Hd Hr), (convert_handler_direct b Hb Hfu).
    destruct (send_file _ _ _); by eexists.
  - intros Hm Hn. eexists. split; [by apply (app_direct req v b)|].
    unfold buffer_of. rewrite Hs. simpl. repeat split.
Qed.


(** The header object of the convert handler's outbound request: a header
    of the caller is kept as it is, and a key the caller does not use has
    the value the form gives it. *)
Lemma spread_lookup (a c : Headers) (k : string) :
  spread a c !! k = match c !! k with Some x => Some x | None => a !! k end.
Proof.
  unfold spread. rewrite lookup_union.
  destruct (c !! k), (a !! k); reflexivity.
Qed.

(** Claim C1, as the code has it. A convert request with a forward target
    makes one outbound request, whose header object is the framing headers
    of the multipart form overlaid by [forward.headers]: every header of the
    caller is in it unchanged, also one named [content-type], and the
    [content-type] with the boundary of the form is in it whenever the
    caller gives no header of that name. *)
Theorem C1_caller_headers_overlay
    (req : Request) (b : ConvertRequestBody) (f : ConvertForwardConfig) :
  convert_forwards E req b f →
  snd <$> app E req = Some [convert_config E b f] ∧
  (∀ k x, default ∅ (cfg_headers f) !! k = Some x →
          req_headers (convert_config E b f) !! k = Some x) ∧
  (∀ k, default ∅ (cfg_headers f) !! k = None →
        req_headers (convert_config E b f) !! k =
          getHeaders (attachment_form E b) !! k) ∧
  (default ∅ (cfg_headers f) !! "content-type" = None →
   req_headers (convert_config E b f) !! "content-type" =
     Some ("multipart/form-data; boundary=" ++ boundary E)).
Proof.
  intros H. split; [apply forwards_calls; by constructor|].
  simpl. split; [|split].
  - intros k x Hk. by rewrite spread_lookup, Hk.
  - intros k Hk. by rewrite spread_lookup, Hk.
  - intros Hk. rewrite spread_lookup, Hk. unfold getHeaders.
    by rewrite lookup_singleton_eq.
Qed.

(** Claim C5, as the code has it. In the server with the API-key check the
    data that the convert handler hands to [axios.request] for a request
    with a forward target is a multipart form with the single part
    [attachment], made of the decoded bytes, the file name and the MIME
    type (with their defaults); the second variant of the handler hands
    over the decoded bytes themselves, and announces the MIME type and the
    byte count in the headers it provides by default. *)
Theorem C5_outbound_body
    (req : Request) (b : ConvertRequestBody) (f : ConvertForwardConfig) (s : string) :
  convert_forwards E req b f →
  base64Data b = Some s →
  (snd <$> app E req = Some [convert_config E b f] ∧
   req_data (convert_config E b f) =
     DataForm {| form_boundary := boundary E;
                 form_parts :=
                   [ {| part_field := "attachment";
                        part_value := Base64.decode s;
                        part_filename := default "file.bin" (fileName b);
                        part_contentType :=
                          default "application/octet-stream" (mimeType b) |} ] |}) ∧
  (snd (GatewayRaw.convert_handler E b) = [GatewayRaw.convert_config b f] ∧
   req_data (GatewayRaw.convert_config b f) = DataBuffer (Base64.decode s) ∧
   (default ∅ (cfg_headers f) !! "Content-Type" = None →
    req_headers (GatewayRaw.convert_config b f) !! "Content-Type" =
      Some (default "application/octet-stream" (mimeType b))) ∧
   (default ∅ (cfg_headers f) !! "Content-Length" = None →
    req_headers (GatewayRaw.convert_config b f) !! "Content-Length" =
      Some (pretty (Z.of_nat (length (Base64.decode s)))))).
Proof.
  intros H Hs. pose proof H as (v & Hd & Hr & Hb & Hf & Hu).
  assert (buffer_of b = Base64.decode s) as Hbuf
    by (unfold buffer_of; by rewrite Hs).
  split; [split|split; [|split; [|split]]].
  - apply forwards_calls. by constructor.
  - simpl. unfold attachment_form, append, FormData_new. simpl. by rewrite Hbuf.
  - unfold GatewayRaw.convert_handler. rewrite Hb, Hf, Hu. simpl.
    by destruct (axios_request _ _).
  - simpl. by rewrite Hbuf.
  - intros Hk. simpl. rewrite spread_lookup, Hk.
    by rewrite lookup_insert_ne, lookup_insert_eq.
  - intros Hk. simpl. rewrite spread_lookup, Hk.
    by rewrite lookup_insert_eq, Hbuf.
Qed.

(** No route is registered on the two paths that the key check exempts,
    other than the liveness probe. *)
Lemma route_exempt (m : Method) (p : string) (rt : Route) :
  p = "/health" ∨ p = "/" → route m p = Some rt → rt = HealthRoute.
Proof. intros [-> | ->]; destruct m; simpl; congruence. Qed.

(** A request whose body the parser rejects goes to the error handlers
    from every path, with or without a key. *)
Lemma app_body_rejected (req : Request) (e : JS.error) :
  method req ≠ OPTIONS →
  parsed req = ParseError e →
  app E req = Some (error_handlers e, []).
Proof.
  intros Hm Hp. unfold app, dispatch. rewrite Hp. by destruct (method req).
Qed.

Lemma error_handlers_status (e : JS.error) :
  (status (error_handlers e) = 400 ∨ status (error_handlers e) = 500) ∧
  (status (error_handlers e) = 400 ↔
   JS.err_class e = JS.SyntaxError ∧ JS.err_has_body e = true).
Proof.
  unfold error_handlers, json_error_handler.
  destruct (JS.err_class e), (JS.err_has_body e); simpl;
    (split; [auto|]); split; try done; intros [? ?]; done.
Qed.

(** A request without [If-None-Match] is not a conditional one. *)
Lemma fresh_unconditional (req : Request) :
  req_hdrs req !! "if-none-match" = None → fresh E req = false.
Proof. intros H. unfold fresh. by rewrite H. Qed.

(** Claim C9, as the code has it. For a request that is not a preflight
    and whose body parsed: on any path other than [/health] and [/], an
    [x-api-key] header that is absent or differs from the configured key is
    answered 401; [GET /health] without an [If-None-Match] header answers
    [{status: "ok"}] whatever its other headers. Without the configured key
    no handler other than the liveness probe is reached. Ahead of the key
    check, a request whose body the parser rejects is answered by the error
    handlers, 400 when the error is a [SyntaxError] carrying the body and
    500 for any other, and a preflight is answered 204. *)
Theorem C9_api_key_gate (req : Request) :
  (∀ v, method req ≠ OPTIONS → parsed req = ParseOk v →
        path req ≠ "/health" → path req ≠ "/" →
        req_hdrs req !! "x-api-key" ≠ Some (API_KEY E) →
        ∃ resp, app E req = Some (resp, []) ∧ status resp = 401) ∧
  (∀ v, method req = GET → parsed req = ParseOk v → path req = "/health" →
        req_hdrs req !! "if-none-match" = None →
        app E req = Some (json 200 (JS.Obj [("status", JS.Str "ok")]), [])) ∧
  (req_hdrs req !! "x-api-key" ≠ Some (API_KEY E) →
   ∀ rt body, dispatch E req = Routed rt body → rt = HealthRoute) ∧
  (∀ e, method req ≠ OPTIONS → parsed req = ParseError e →
        ∃ resp, app E req = Some (resp, []) ∧
                (status resp = 400 ∨ status resp = 500) ∧
                (status resp = 400 ↔
                 JS.err_class e = JS.SyntaxError ∧ JS.err_has_body e = true)) ∧
  (method req = OPTIONS →
   app E req = Some ({| status := 204; headers := ∅; body := Empty |}, [])).
Proof.
  split; [|split; [|split; [|split]]].
  - intros v Hm Hp Hh Hr Hk. exists unauthorized. split; [|done].
    destruct (api_key_middleware E req) as [r|] eqn:Hmw.
    + apply api_key_middleware_rejects in Hmw as Heq. subst r.
      unfold app, dispatch. rewrite Hp, Hmw. by destruct (method req).
    + apply api_key_middleware_next in Hmw as [?|[?|?]]; done.
  - intros v Hg Hp Hh Hc. unfold app, dispatch, api_key_middleware.
    rewrite Hg, Hp, Hh. simpl. unfold health_handler.
    by rewrite (fresh_unconditional req Hc).
  - intros Hk rt body (_ & _ & Hmw & Hrt)%dispatch_routed.
    apply api_key_middleware_next in Hmw as [Hh|[Hr|?]]; [| |done].
    + apply (route_exempt (method req) (path req)); [by left | done].
    + apply (route_exempt (method req) (path req)); [by right | done].
  - intros e Hm Hp. exists (error_handlers e).
    split; [by apply app_body_rejected|]. apply error_handlers_status.
  - intros Hm. unfold app, dispatch. by rewrite Hm.
Qed.

End GatewayFacts.

(** *** The claims at concrete requests *)

Section GatewayCases.
Import Gateway Cases.

Lemma convert_forwards_hello (x : Exchange) :
  convert_forwards (answering x) (convert (zoho [authorization]))
    (hello_body (Some (zoho_config token_only))) (zoho_config token_only).
Proof. exists (hello (zoho [authorization])). repeat split. Defined.

Lemma generic_forwards_hook (x : Exchange) :
  generic_forwards (answering x) generic generic_body.
Proof.
  exists (JS.Obj [ ("targetUrl", JS.Str "https://example.org/hook");
                   ("body", JS.Obj [("n", JS.Num 1)]) ]).
  repeat split.
Defined.

Lemma C2_upstream_status_relayed_witness :
  forwards (answering (Completed (upstream 429))) (convert (zoho [authorization]))
    (convert_config (answering (Completed (upstream 429)))
       (hello_body (Some (zoho_config token_only))) (zoho_config token_only)) ∧
  (200 ≤ res_status (upstream 429) ≤ 999)%Z ∧
  ∃ resp,
    app (answering (Completed (upstream 429))) (convert (zoho [authorization])) =
      Some (resp,
            [convert_config (answering (Completed (upstream 429)))
               (hello_body (Some (zoho_config token_only))) (zoho_config token_only)]) ∧
    status resp = 429 ∧
    body resp = Json (JS.Obj [ ("status", JS.Num 429);
                               ("headers", res_headers (upstream 429));
                               ("data", res_data (upstream 429)) ]).
Proof.
  pose proof (forwards_convert _ _ _ _
                (convert_forwards_hello (Completed (upstream 429)))) as H.
  assert ((200 ≤ res_status (upstream 429) ≤ 999)%Z) as Hst by (simpl; lia).
  split; [exact H|]. split; [exact Hst|].
  destruct (C2_upstream_status_relayed _ _ _ (upstream 429) H eq_refl Hst)
    as (resp & Happ & Hs & Hbody & _).
  exists resp. split; [exact Happ|]. split; [exact Hs|].
  apply Hbody; discriminate.
Defined.

(** Claim C2 as it is worded fails: an upstream answer of status 204 is
    relayed with the status 204 and without any body, so there is no JSON
    body with a status field. *)
Lemma C2_counterexample :
  forwards (answering (Completed (upstream 204))) (convert (zoho [authorization]))
    (convert_config (answering (Completed (upstream 204)))
       (hello_body (Some (zoho_config token_only))) (zoho_config token_only)) ∧
  ∃ resp calls,
    app (answering (Completed (upstream 204))) (convert (zoho [authorization])) =
      Some (resp, calls) ∧
    status resp = 204 ∧
    body resp = Empty ∧
    ∀ v, body resp ≠ Json v.
Proof.
  split.
  - apply forwards_convert, convert_forwards_hello.
  - eexists _, _. split; [reflexivity|]. repeat split. discriminate.
Qed.

Lemma C7_transport_failure_generic_500_witness :
  forwards (answering refused) generic (forward_config generic_body) ∧
  network (answering refused) (forward_config generic_body) = refused ∧
  app (answering refused) generic =
    Some ({| status := 500; headers := ∅;
             body := Json (JS.Obj [("error", JS.Str "Internal server error")]) |},
          [forward_config generic_body]).
Proof.
  pose proof (forwards_generic _ _ _ (generic_forwards_hook refused)) as H.
  split; [exact H|]. split; [reflexivity|].
  apply (C7_transport_failure_generic_500 _ _ _
           (JS.OtherError "AxiosError") "connect ECONNREFUSED 127.0.0.1:443" H).
  reflexivity.
Defined.

Lemma C8_direct_download_witness :
  dispatch (answering refused) (convert JS.Undefined) =
    Routed ConvertRoute (hello JS.Undefined) ∧
  read_ConvertRequestBody (hello JS.Undefined) = Some (hello_body None) ∧
  header_value "text/plain" = true ∧
  header_value "test.txt" = true ∧
  unpadded "text/plain" = true ∧
  ∃ resp,
    app (answering refused) (convert JS.Undefined) = Some (resp, []) ∧
    status resp = 200 ∧
    body resp = Binary (Base64.bytes_of "Hello, World!") ∧
    headers resp !! "Content-Type" = Some "text/plain" ∧
    headers resp !! "Content-Disposition" =
      Some ("attachment; filename=" ++ JS.dquote ++ "test.txt" ++ JS.dquote).
Proof.
  split; [reflexivity|]. split; [reflexivity|].
  split; [reflexivity|]. split; [reflexivity|]. split; [reflexivity|].
  destruct (C8_direct_download (answering refused) (convert JS.Undefined)
              (hello JS.Undefined) (hello_body None) "SGVsbG8sIFdvcmxkIQ==")
    as [H _];
    [reflexivity | reflexivity | reflexivity | discriminate | reflexivity |].
  destruct (H eq_refl eq_refl) as (resp & Happ & Hst & Hbody & Htype & Hdisp).
  exists resp. split; [exact Happ|]. split; [exact Hst|]. split; [exact Hbody|].
  split; [exact (Htype eq_refl) | exact Hdisp].
Defined.

(** Claim C8 as it is worded fails: a file name with a line break cannot
    stand in a header, [res.setHeader] throws and the request is answered
    500; and an empty [mimeType] is sent as [application/octet-stream]. *)
Lemma C8_counterexample :
  (dispatch (answering refused) (named broken_name "text/plain" JS.Undefined) =
     Routed ConvertRoute
       (JS.Obj [ ("base64Data", JS.Str "SGVsbG8h");
                 ("fileName", JS.Str broken_name);
                 ("mimeType", JS.Str "text/plain");
                 ("forward", JS.Undefined) ]) ∧
   ∃ resp,
     app (answering refused) (named broken_name "text/plain" JS.Undefined) =
       Some (resp, []) ∧
     status resp = 500 ∧
     ∀ bytes, body resp ≠ Binary bytes) ∧
  (∃ resp,
     app (answering refused) (named "a.txt" EmptyString JS.Undefined) =
       Some (resp, []) ∧
     status resp = 200 ∧
     headers resp !! "Content-Type" = Some "application/octet-stream" ∧
     headers resp !! "Content-Type" ≠ Some EmptyString).
Proof.
  split.
  - split; [reflexivity|]. eexists. split; [reflexivity|]. split; [reflexivity|].
    discriminate.
  - eexists. split; [reflexivity|]. split; [reflexivity|]. split; [reflexivity|].
    discriminate.
Qed.

Lemma C10_forward_without_url_witness :
  read_ConvertRequestBody (hello (JS.Obj [("method", JS.Str "POST")])) =
    Some (hello_body (Some {| url := None; cfg_method := Some "POST";
                              cfg_headers := None |})) ∧
  convert_handler (answering refused)
    (hello_body (Some {| url := None; cfg_method := Some "POST";
                         cfg_headers := None |})) =
  convert_handler (answering refused) (hello_body None) ∧
  ∃ resp,
    app (answering refused) (convert (JS.Obj [("method", JS.Str "POST")])) =
      Some (resp, []) ∧
    status resp = 200 ∧
    body resp = Binary (Base64.bytes_of "Hello, World!") ∧
    headers resp !! "Content-Type" = Some "text/plain" ∧
    headers resp !! "Content-Disposition" =
      Some ("attachment; filename=" ++ JS.dquote ++ "test.txt" ++ JS.dquote).
Proof.
  split; [reflexivity|].
  destruct (C10_forward_without_url (answering refused)
              (convert (JS.Obj [("method", JS.Str "POST")]))
              (hello (JS.Obj [("method", JS.Str "POST")]))
              (hello_body (Some {| url := None; cfg_method := Some "POST";
                                   cfg_headers := None |}))
              "SGVsbG8sIFdvcmxkIQ=="
              {| url := None; cfg_method := Some "POST"; cfg_headers := None |})
    as (Heq & _ & H);
    [reflexivity | reflexivity | reflexivity | discriminate | reflexivity
    | left; reflexivity |].
  split; [exact Heq|].
  destruct (H eq_refl eq_refl) as (resp & Happ & Hst & Hbody & Htype & Hdisp).
  exists resp. split; [exact Happ|]. split; [exact Hst|]. split; [exact Hbody|].
  split; [exact (Htype eq_refl) | exact Hdisp].
Defined.

(** Claim C10 as it is worded fails: with a [forward] object that has no
    [url], a file name with a line break is answered 500 and the decoded
    bytes are not returned. *)
Lemma C10_counterexample :
  read_ConvertRequestBody
    (JS.Obj [ ("base64Data", JS.Str "SGVsbG8h");
              ("fileName", JS.Str broken_name);
              ("mimeType", JS.Str "text/plain");
              ("forward", JS.Obj [("method", JS.Str "POST")]) ]) =
    Some {| base64Data := Some "SGVsbG8h"; fileName := Some broken_name;
            mimeType := Some "text/plain";
            forward := Some {| url := None; cfg_method := Some "POST";
                               cfg_headers := None |} |} ∧
  ∃ resp,
    app (answering refused)
        (named broken_name "text/plain" (JS.Obj [("method", JS.Str "POST")])) =
      Some (resp, []) ∧
    status resp = 500 ∧
    body resp ≠ Binary (Base64.bytes_of "Hello!").
Proof.
  split; [reflexivity|].
  eexists. split; [reflexivity|]. split; [reflexivity|]. discriminate.
Qed.



Lemma C1_caller_headers_overlay_witness :
  convert_forwards (answering (Completed (upstream 201)))
    (convert (zoho [authorization]))
    (hello_body (Some (zoho_config token_only))) (zoho_config token_only) ∧
  req_headers (convert_config (answering (Completed (upstream 201)))
                 (hello_body (Some (zoho_config token_only)))
                 (zoho_config token_only)) !! "Authorization" =
    Some "Zoho-oauthtoken 1000.abc" ∧
  req_headers (convert_config (answering (Completed (upstream 201)))
                 (hello_body (Some (zoho_config token_only)))
                 (zoho_config token_only)) !! "content-type" =
    Some ("multipart/form-data; boundary=" ++
          boundary (answering (Completed (upstream 201)))).
Proof.
  pose proof (C1_caller_headers_overlay (answering (Completed (upstream 201)))
                (convert (zoho [authorization]))
                (hello_body (Some (zoho_config token_only)))
                (zoho_config token_only)
                (convert_forwards_hello (Completed (upstream 201))))
    as (_ & Hkeep & _ & Hframe).
  split; [apply convert_forwards_hello|]. split.
  - apply Hkeep. reflexivity.
  - apply Hframe. reflexivity.
Defined.

(** Claim C1 as it is worded fails: a [content-type] header of the caller
    takes the place of the framing header in the outbound request. *)
Lemma C1_counterexample :
  convert_forwards (answering (Completed (upstream 201)))
    (convert (zoho [("content-type", JS.Str "application/json"); authorization]))
    (hello_body (Some (zoho_config with_content_type)))
    (zoho_config with_content_type) ∧
  ∃ resp cfg,
    app (answering (Completed (upstream 201)))
        (convert (zoho [("content-type", JS.Str "application/json"); authorization])) =
      Some (resp, [cfg]) ∧
    req_headers cfg !! "content-type" = Some "application/json" ∧
    req_headers cfg !! "Content-Type" = None ∧
    req_headers cfg !! "content-type" ≠
      Some ("multipart/form-data; boundary=" ++
            boundary (answering (Completed (upstream 201)))).
Proof.
  split.
  - exists (hello (zoho [("content-type", JS.Str "application/json"); authorization])).
    repeat split.
  - eexists _, _. split; [reflexivity|]. repeat split. discriminate.
Qed.

Lemma C5_outbound_body_witness :
  convert_forwards (answering (Completed (upstream 201)))
    (convert (zoho [authorization]))
    (hello_body (Some (zoho_config token_only))) (zoho_config token_only) ∧
  req_data (convert_config (answering (Completed (upstream 201)))
              (hello_body (Some (zoho_config token_only)))
              (zoho_config token_only)) =
    DataForm {| form_boundary := boundary (answering (Completed (upstream 201)));
                form_parts :=
                  [ {| part_field := "attachment";
                       part_value := Base64.bytes_of "Hello, World!";
                       part_filename := "test.txt";
                       part_contentType := "text/plain" |} ] |} ∧
  req_data (GatewayRaw.convert_config
              (hello_body (Some (zoho_config token_only)))
              (zoho_config token_only)) =
    DataBuffer (Base64.bytes_of "Hello, World!").
Proof.
  pose proof (C5_outbound_body (answering (Completed (upstream 201)))
                (convert (zoho [authorization]))
                (hello_body (Some (zoho_config token_only)))
                (zoho_config token_only) "SGVsbG8sIFdvcmxkIQ=="
                (convert_forwards_hello (Completed (upstream 201))) eq_refl)
    as ((_ & Hform) & _ & Hraw & _).
  split; [apply convert_forwards_hello|]. split; [exact Hform | exact Hraw].
Defined.

(** Claim C5 as it is worded fails on the second variant of the handler:
    its outbound body is the decoded bytes, not a multipart form. *)
Lemma C5_counterexample :
  ∃ cfg,
    snd (GatewayRaw.convert_handler (answering (Completed (upstream 201)))
           (hello_body (Some (zoho_config token_only)))) = [cfg] ∧
    req_data cfg = DataBuffer (Base64.bytes_of "Hello, World!") ∧
    ∀ fd, req_data cfg ≠ DataForm fd.
Proof. eexists. split; [reflexivity|]. split; [reflexivity|]. discriminate. Qed.

Lemma C9_api_key_gate_witness :
  method (post "/api/forward" (Some "wrong") (ParseOk (JS.Obj []))) ≠ OPTIONS ∧
  req_hdrs (post "/api/forward" (Some "wrong") (ParseOk (JS.Obj []))) !! "x-api-key"
    ≠ Some (API_KEY (answering refused)) ∧
  ∃ resp,
    app (answering refused) (post "/api/forward" (Some "wrong") (ParseOk (JS.Obj []))) =
      Some (resp, []) ∧
    status resp = 401.
Proof.
  pose proof (C9_api_key_gate (answering refused)
                (post "/api/forward" (Some "wrong") (ParseOk (JS.Obj [])))) as H.
  split; [discriminate|]. split; [discriminate|].
  destruct H as (H401 & _).
  apply (H401 (JS.Obj [])); [discriminate | reflexivity | discriminate
                            | discriminate | discriminate].
Defined.

(** Claim C9 as it is worded fails: without any key, a request whose body
    the parser rejects is answered 400 by the JSON error handler, and a
    preflight is answered 204, both ahead of the key check; and the
    liveness probe answers a conditional [GET] that matches with 304 and no
    body. *)
Lemma C9_counterexample :
  (path malformed ≠ "/health" ∧
   req_hdrs malformed !! "x-api-key" = None ∧
   ∃ resp, app (answering refused) malformed = Some (resp, []) ∧ status resp = 400) ∧
  (path preflight ≠ "/health" ∧
   req_hdrs preflight !! "x-api-key" = None ∧
   ∃ resp, app (answering refused) preflight = Some (resp, []) ∧ status resp = 204) ∧
  (method conditional = GET ∧ path conditional = "/health" ∧
   ∃ resp, app (answering refused) conditional = Some (resp, []) ∧
           status resp = 304 ∧ body resp = Empty).
Proof.
  split; [|split].
  - split; [discriminate|]. split; [reflexivity|]. eexists. split; reflexivity.
  - split; [discriminate|]. split; [reflexivity|]. eexists. split; reflexivity.
  - split; [reflexivity|]. split; [reflexivity|]. eexists.
    split; [reflexivity|]. split; reflexivity.
Qed.

End GatewayCases.

(** ** The Suitelet *)

Section SuiteletFacts.
Import Suitelet.

Context {World : Type} (P : Platform World).

(** The callback never asks [each] to stop. *)
Lemma callback_continues (fileId : string) (st : list JS.value * World) :
  fst (callback P fileId st) = true.
Proof.
  destruct st as [results w]. unfold callback.
  destruct (getMimeType _); [|done].
  destruct (post_file _ _ _ _) as [posted w'].
  by destruct (try_block _ _ _).
Qed.

Lemma try_block_entry (fileObj : File) posted (entry : JS.value) :
  try_block P fileObj posted = inr entry →
  JS.field entry "fileName" = JS.Str (name fileObj) ∧
  (JS.field entry "status" = JS.Str "success" ∨
   JS.field entry "status" = JS.Str "failed").
Proof.
  unfold try_block. destruct posted as [e|response]; [done|].
  destruct (JSON_parse P (body response)) as [e|mr]; [done|].
  destruct (JS.get mr "status") as [e|zs]; [done|].
  destruct (JS.get mr "data") as [e|zr]; [done|].
  intros [= <-]. split; [done|]. simpl.
  destruct (JS.strict_eq_num zs 200 || JS.strict_eq_num zs 201); auto.
Qed.

(** One call of the callback pushes exactly one entry, named after the
    file, in one of the four states. *)
Lemma callback_pushes_one (fileId : string) (results : list JS.value) (w : World) :
  ∃ entry w',
    callback P fileId (results, w) = (true, ((results ++ [entry])%list, w')) ∧
    JS.field entry "fileName" = JS.Str (name (file_load P fileId)) ∧
    JS.field entry "status" ∈ states.
Proof.
  unfold callback, states.
  destruct (getMimeType _) as [mimeType|].
  - destruct (post_file _ _ _ _) as [posted w'].
    destruct (try_block P (file_load P fileId) posted) as [e|entry] eqn:Ht.
    + eexists _, _. split; [done|]. split; [done|]. simpl. set_solver.
    + apply try_block_entry in Ht as [Hn [Hs|Hs]];
        eexists _, _; (split; [done|]); (split; [done|]); rewrite Hs; set_solver.
  - eexists _, _. split; [done|]. split; [done|]. simpl. set_solver.
Qed.

(** The loop appends one entry per search result, in the order of the
    search, to what [results] held before. *)
Lemma each_callback (found : list string) (results : list JS.value) (w : World) :
  ∃ new w',
    each (callback P) found (results, w) = ((results ++ new)%list, w') ∧
    Forall2 (λ fileId entry,
               JS.field entry "fileName" = JS.Str (name (file_load P fileId)) ∧
               JS.field entry "status" ∈ states) found new.
Proof.
  revert results w. induction found as [|fileId found IH]; intros results w.
  - exists [], w. simpl. by rewrite app_nil_r.
  - destruct (callback_pushes_one fileId results w) as (entry & w1 & Hcb & Hn & Hs).
    destruct (IH (results ++ [entry])%list w1) as (new & w' & Heach & Hall).
    exists (entry :: new), w'. split.
    + cbn [each]. rewrite Hcb, Heach. by rewrite <- app_assoc.
    + by constructor.
Qed.

(** Claim C3. For a file of a mapped type, the entry recorded after the
    post is classified by what came back: when [https.post] throws, or the
    answer does not parse, the entry is [error] and carries the text of the
    exception; when the answer parses to an envelope with numeric status
    [st], the entry is [success] if [st] is 200 or 201 and [failed]
    otherwise, and it carries [st] and the upstream data. *)
Theorem C3_outcome_classification
    (fileId mimeType : string) (results : list JS.value) (w w' : World)
    (posted : JS.error + ClientResponse) :
  getMimeType (fileType (file_load P fileId)) = Some mimeType →
  post_file P (file_load P fileId) mimeType w = (posted, w') →
  ∃ entry,
    callback P fileId (results, w) = (true, ((results ++ [entry])%list, w')) ∧
    JS.field entry "fileName" = JS.Str (name (file_load P fileId)) ∧
    (∀ e, posted = inl e →
          JS.field entry "status" = JS.Str "error" ∧
          JS.field entry "error" = JS.Str (JS.error_toString e)) ∧
    (∀ response e, posted = inr response →
          JSON_parse P (body response) = inl e →
          JS.field entry "status" = JS.Str "error" ∧
          JS.field entry "error" = JS.Str (JS.error_toString e)) ∧
    (∀ response props st, posted = inr response →
          JSON_parse P (body response) = inr (JS.Obj props) →
          JS.assoc "status" props = JS.Num st →
          JS.field entry "status" =
            JS.Str (if bool_decide (st = 200 ∨ st = 201) then "success" else "failed") ∧
          JS.field entry "zohoStatus" = JS.Num st ∧
          JS.field entry "zohoResponse" = JS.assoc "data" props ∧
          JS.field entry "middlewareStatus" = JS.Num (code response) ∧
          (st ≠ 200 → st ≠ 201 →
           JS.field entry "message" =
             JS.Str ("Zoho upload failed with status: " ++ pretty st))).
Proof.
  intros Hm Hp. unfold callback. rewrite Hm, Hp.
  destruct posted as [e|response].
  - eexists. split; [done|]. split; [done|]. split; [|split].
    + by intros ? [= <-].
    + by intros.
    + by intros.
  - simpl. destruct (JSON_parse P (body response)) as [e|mr] eqn:Hparse.
    + eexists. split; [done|]. split; [done|]. split; [|split].
      * by intros.
      * intros ? ? [= <-]. rewrite Hparse. by intros [= <-].
      * intros ? ? ? [= <-]. by rewrite Hparse.
    + destruct mr as [| | | | | |props];
        try (simpl; eexists; split; [done|]; split; [done|];
             split; [by intros|]; split;
             [intros ? ? [= <-]; by rewrite Hparse
             |intros ? ? ? [= <-]; by rewrite Hparse]).
      simpl. eexists. split; [done|]. split; [done|]. split; [by intros|].
      split; [intros ? ? [= <-]; by rewrite Hparse|].
      intros ? props' st [= <-]. rewrite Hparse. intros [= <-] Hst.
      rewrite Hst. simpl.
      destruct (Z.eqb_spec st 200) as [->|H200]; simpl.
      { repeat split; done. }
      destruct (Z.eqb_spec st 201) as [->|H201]; simpl.
      { repeat split; done. }
      rewrite bool_decide_eq_false_2 by (intros [?|?]; done).
      repeat split; done.
Qed.

(** *** Runs in which a file may fail to load *)

Lemma visit_loaded (fileId : string) (st : list JS.value * World) :
  load_error P fileId = None → visit P fileId st = inr (callback P fileId st).
Proof. intros H. unfold visit. by rewrite H. Qed.

(** A call of the callback that returns never asks [each] to stop. *)
Lemma visit_continues (fileId : string) (st st' : list JS.value * World)
    (continue : bool) :
  visit P fileId st = inr (continue, st') → continue = true.
Proof.
  unfold visit. destruct (load_error P fileId); [done|].
  intros [= H]. pose proof (callback_continues fileId st) as Hc.
  rewrite H in Hc. exact Hc.
Qed.

Lemma reached_loaded (found : list string) :
  (∀ fileId, fileId ∈ found → load_error P fileId = None) →
  reached P found = found.
Proof.
  induction found as [|fileId found IH]; intros H; simpl; [done|].
  rewrite (H fileId) by apply list_elem_of_here.
  rewrite IH; [done|]. intros ? ?. apply H. by apply list_elem_of_further.
Qed.

(** The iteration visits the results that are reached, and ends with an
    exception exactly when one of the results does not load. *)
Lemma each_raising_reached (found : list string) (st : list JS.value * World) :
  snd (each_raising (visit P) found st) = each (callback P) (reached P found) st ∧
  (fst (each_raising (visit P) found st) = None ↔ reached P found = found).
Proof.
  revert st. induction found as [|fileId found IH]; intros st; simpl; [done|].
  unfold visit. destruct (load_error P fileId) as [e|]; simpl; [done|].
  destruct (callback P fileId st) as [continue st'] eqn:Hcb.
  pose proof (callback_continues fileId st) as Hc. rewrite Hcb in Hc.
  simpl in Hc. subst continue.
  destruct (IH st') as [H1 H2]. split; [done|].
  rewrite H2. split; [by intros -> | by intros [= ?]].
Qed.

(** A run in which every file loads writes the report of [onRequest]. *)
Lemma run_loaded (found : list string) (w : World) :
  (∀ fileId, fileId ∈ found → load_error P fileId = None) →
  run P found w = (inr (fst (onRequest P found w)), snd (onRequest P found w)).
Proof.
  intros H%reached_loaded. unfold run, onRequest.
  destruct (each_raising_reached found ([], w)) as [H1 H2].
  rewrite H in H1. apply H2 in H.
  destruct (each_raising (visit P) found ([], w)) as [oe st].
  simpl in H, H1. subst oe st.
  by destruct (each (callback P) found ([], w)).
Qed.

(** A run in which a file does not load writes no report. *)
Lemma run_raises (found : list string) (w : World) (fileId : string) :
  fileId ∈ found → load_error P fileId ≠ None →
  ∃ e, fst (run P found w) = inl e.
Proof.
  intros Hin Hl.
  assert (reached P found ≠ found) as Hne.
  { intros Heq. clear w. induction found as [|x found IH]; [by inversion Hin|].
    simpl in Heq. destruct (load_error P x) eqn:Hx; [done|].
    injection Heq as Heq. apply elem_of_cons in Hin as [->|Hin]; [done|].
    by apply IH. }
  unfold run. destruct (each_raising_reached found ([], w)) as [_ H2].
  destruct (each_raising (visit P) found ([], w)) as [[e|] [results w']].
  - by exists e.
  - simpl in H2. destruct Hne. by apply H2.
Qed.

(** Claim C4, as the code has it. In a run in which every attached file
    loads, the report is written, [filesProcessed] is the number of search
    results, [results] holds one entry per search result in the order of
    the search, each named after its file and in one of the four states,
    and the callback never stops the iteration, whatever the state of the
    entry it records. *)
Theorem C4_batch_completeness (found : list string) (w : World) :
  (∀ fileId, fileId ∈ found → load_error P fileId = None) →
  ∃ report,
    fst (run P found w) = inr report ∧
    JS.field report "status" = JS.Str "completed" ∧
    JS.field report "filesProcessed" = JS.Num (Z.of_nat (length found)) ∧
    (∃ results,
       JS.field report "results" = JS.Arr results ∧
       length results = length found ∧
       Forall2 (λ fileId entry,
                  JS.field entry "fileName" = JS.Str (name (file_load P fileId)) ∧
                  JS.field entry "status" ∈ states) found results) ∧
    (∀ fileId st continue st',
       visit P fileId st = inr (continue, st') → continue = true).
Proof.
  intros Hl. rewrite (run_loaded found w Hl). eexists. split; [done|].
  unfold onRequest.
  destruct (each_callback found [] w) as (new & w' & -> & Hall).
  simpl. pose proof (Forall2_length _ _ _ Hall) as Hlen.
  split; [done|]. split; [by rewrite Hlen|].
  split; [by exists new|]. intros fileId st continue st'. apply visit_continues.
Qed.

End SuiteletFacts.

(** *** The claims on a scripted run *)

Section SuiteletCases.
Import Suitelet Cases.

Lemma C3_outcome_classification_witness :
  getMimeType (fileType (file_load scripted "1")) = Some "application/pdf" ∧
  post_file scripted (file_load scripted "1") "application/pdf" [inr limited] =
    (inr limited, []) ∧
  ∃ entry,
    callback scripted "1" ([], [inr limited]) = (true, ([entry], [])) ∧
    JS.field entry "status" = JS.Str "failed" ∧
    JS.field entry "zohoStatus" = JS.Num 429.
Proof.
  split; [reflexivity|]. split; [reflexivity|].
  destruct (C3_outcome_classification scripted "1" "application/pdf" []
              [inr limited] [] (inr limited) eq_refl eq_refl)
    as (entry & Hcb & _ & _ & _ & Hst).
  exists entry. split; [exact Hcb|].
  destruct (Hst limited
              [ ("status", JS.Num 429); ("data", JS.Obj [("code", JS.Num 44)]) ]
              429 eq_refl eq_refl eq_refl) as (H1 & H2 & _).
  split; [exact H1 | exact H2].
Defined.

Lemma C4_batch_completeness_witness :
  (∀ fileId, fileId ∈ ["1"; "2"; "3"] → load_error scripted fileId = None) ∧
  ∃ report,
    fst (run scripted ["1"; "2"; "3"] [inr created; inr limited]) = inr report ∧
    JS.field report "filesProcessed" = JS.Num 3.
Proof.
  assert (∀ fileId, fileId ∈ ["1"; "2"; "3"] → load_error scripted fileId = None)
    as H by (intros fileId _; reflexivity).
  split; [exact H|].
  destruct (C4_batch_completeness scripted ["1"; "2"; "3"]
              [inr created; inr limited] H)
    as (report & Hrun & _ & Hcount & _).
  exists report. split; [exact Hrun | exact Hcount].
Defined.

(** Claim C4 as it is worded fails: when the second of three attachments
    is too large to be loaded, [file.load] throws outside the [try], the
    run ends with that exception after the first attachment was posted, and
    no report is written. *)
Lemma C4_counterexample :
  load_error oversized "2" = Some too_big ∧
  run oversized ["1"; "2"; "3"] [inr created; inr limited] =
    (inl too_big, [inr limited]) ∧
  ∀ report,
    fst (run oversized ["1"; "2"; "3"] [inr created; inr limited]) ≠ inr report.
Proof. split; [reflexivity|]. split; [reflexivity|]. discriminate. Qed.

(** Three attachments, the second of an unmapped type: the first upload is
    accepted with 201, the third is turned down with 429, and the report
    lists all three in order. *)
Example three_attachments :
  JS.field (fst (onRequest scripted ["1"; "2"; "3"] [inr created; inr limited]))
    "filesProcessed" = JS.Num 3 ∧
  match JS.field (fst (onRequest scripted ["1"; "2"; "3"] [inr created; inr limited]))
          "results" with
  | JS.Arr entries =>
      map (λ entry, (JS.field entry "fileName", JS.field entry "status")) entries
  | _ => []
  end =
  [ (JS.Str "bill-1.pdf", JS.Str "success");
    (JS.Str "song.mp3", JS.Str "skipped");
    (JS.Str "bill-3.pdf", JS.Str "failed") ].
Proof. split; reflexivity. Qed.

(** A post that throws is recorded and the next file is still processed. *)
Example error_does_not_stop :
  match JS.field (fst (onRequest scripted ["1"; "3"] [inl timeout; inr created]))
          "results" with
  | JS.Arr entries => map (λ entry, JS.field entry "status") entries
  | _ => []
  end = [JS.Str "error"; JS.Str "success"].
Proof. reflexivity. Qed.

End SuiteletCases.

(** * Further properties *)

(** ** Encoding and decoding *)

Section Base64More.
Import Base64.

(** Property X1. Decoding the base64 text that [buffer.toString("base64")]
    writes for a sequence of bytes gives those bytes back. *)
Theorem X1_decode_encode_roundtrip (bs : list Z) :
  Forall byte bs → decode (encode bs) = bs.
Proof. apply decode_encode. Qed.

Lemma X1_decode_encode_roundtrip_witness :
  Forall byte (bytes_of "%PDF-1.4") ∧
  decode (encode (bytes_of "%PDF-1.4")) = bytes_of "%PDF-1.4".
Proof.
  assert (Forall byte (bytes_of "%PDF-1.4")) as H.
  { apply (bool_decide_unpack _). vm_compute. exact I. }
  split; [exact H|]. apply (X1_decode_encode_roundtrip _ H).
Defined.

Lemma encode_length_aux (n : nat) (bs : list Z) :
  (length bs ≤ n)%nat →
  String.length (encode bs) = (4 * ((length bs + 2) / 3))%nat.
Proof.
  revert bs. induction n as [|n IH]; intros bs Hn.
  - destruct bs; [reflexivity | simpl in Hn; lia].
  - destruct bs as [|x [|y [|z bs]]]; try reflexivity.
    cbn [encode String.length length].
    rewrite IH by (simpl in Hn; lia).
    replace (S (S (S (length bs))) + 2)%nat with (length bs + 2 + 1 * 3)%nat by lia.
    rewrite Nat.div_add by lia. lia.
Qed.

(** Property X2. The base64 text of [n] bytes has [4 * ceil (n / 3)]
    characters: it is always made of whole groups of four. *)
Theorem X2_encode_length (bs : list Z) :
  String.length (encode bs) = (4 * ((length bs + 2) / 3))%nat.
Proof. by apply (encode_length_aux (length bs)). Qed.

Lemma sextets_length (s : string) : (length (sextets s) ≤ String.length s)%nat.
Proof.
  induction s as [|c s IH]; simpl; [lia|].
  destruct (Ascii.eqb c "="%char); simpl; [lia|].
  destruct (unbase64 c); simpl; lia.
Qed.

Lemma pack_length_aux (n : nat) (l : list Z) :
  (length l ≤ n)%nat → (4 * length (pack l) ≤ 3 * length l)%nat.
Proof.
  revert l. induction n as [|n IH]; intros l Hn.
  - destruct l; [simpl; lia | simpl in Hn; lia].
  - destruct l as [|a [|b [|c [|d l]]]]; try (simpl; lia).
    change (pack (a :: b :: c :: d :: l))
      with (byte1 a b :: byte2 b c :: byte3 c d :: pack l).
    specialize (IH l). simpl in *. lia.
Qed.

(** Property X3. The decoded buffer is never longer than three quarters of
    the [base64Data] text it comes from. *)
Theorem X3_decode_length (s : string) :
  (4 * length (decode s) ≤ 3 * String.length s)%nat.
Proof.
  unfold decode. pose proof (sextets_length s).
  pose proof (pack_length_aux (length (sextets s)) (sextets s)). lia.
Qed.

(** On a text of 8-bit characters the decoder on code units is [decode]. *)
Lemma low_byte_ascii (c : ascii) : low_byte (N_of_ascii c) = c.
Proof.
  unfold low_byte. rewrite N.mod_small by apply N_ascii_bounded.
  apply ascii_N_embedding.
Qed.

Lemma decode_units_ascii (s : string) :
  decode_units (map N_of_ascii (list_ascii_of_string s)) = decode s.
Proof.
  unfold decode_units, low_bytes. rewrite map_map.
  rewrite (map_ext _ (λ c, c) low_byte_ascii), map_id.
  by rewrite string_of_list_ascii_of_string.
Qed.

(** Property X4. A code unit whose low byte is neither a base64 character
    nor the padding character (a blank, a line break, U+00E9) does not
    change what the text decodes to, wherever it stands. A code unit is
    read by its low byte: U+0141 is not such a unit, it counts as [A]. *)
Theorem X4_decode_skips_foreign (p r : list N) (u : N) :
  unbase64 (low_byte u) = None → low_byte u ≠ "="%char →
  decode_units (p ++ u :: r) = decode_units (p ++ r).
Proof.
  intros Hu Hne. unfold decode_units. rewrite !low_bytes_app.
  change (low_bytes (u :: r)) with (String (low_byte u) (low_bytes r)).
  by apply decode_skip.
Qed.

(** A line break (code unit 10) inside the text [SGVsbG8h]. *)
Lemma X4_decode_skips_foreign_witness :
  unbase64 (low_byte 10) = None ∧ low_byte 10 ≠ "="%char ∧
  decode_units ([83%N; 71%N; 86%N; 115%N] ++ 10%N :: [98%N; 71%N; 56%N; 104%N])%list =
    decode_units ([83%N; 71%N; 86%N; 115%N] ++ [98%N; 71%N; 56%N; 104%N])%list.
Proof.
  split; [reflexivity|]. split; [discriminate|].
  apply (X4_decode_skips_foreign [83; 71; 86; 115]%N [98; 71; 56; 104]%N 10%N);
    [reflexivity | discriminate].
Defined.

(** The code unit U+0141 is read as its low byte, the character [A]: four
    of them decode like [AAAA]. *)
Example decode_units_low_byte :
  unbase64 (low_byte 321) = Some 0 ∧
  decode_units [321; 321; 321; 321]%N = decode "AAAA" ∧
  decode_units [321; 321; 321; 321]%N = [0; 0; 0].
Proof. repeat split. Qed.

End Base64More.

(** ** The gateway beyond the forwarding path *)

Section GatewayMore.
Import Gateway.

Variable E : Env.

Local Ltac own_status :=
  unfold Link.own_statuses; simpl; apply (bool_decide_unpack _); vm_compute; exact I.

Lemma read_string_Some (x : JS.value) (u : string) :
  read_string x = Some (Some u) → x = JS.Str u.
Proof. destruct x; simpl; congruence. Qed.

Lemma read_ConvertForwardConfig_url (x : JS.value) (f : ConvertForwardConfig) :
  read_ConvertForwardConfig x = Some (Some f) →
  read_string (JS.field x "url") = Some (url f).
Proof.
  destruct x; simpl; try congruence.
  destruct (read_string _) as [u|]; [|congruence].
  destruct (read_string _) as [m|]; [|congruence].
  destruct (read_headers _) as [h|]; [|congruence].
  by intros [= <-].
Qed.

Lemma read_ForwardRequestBody_targetUrl (v : JS.value) (b : ForwardRequestBody) :
  read_ForwardRequestBody v = Some b →
  read_string (JS.field v "targetUrl") = Some (targetUrl b).
Proof.
  unfold read_ForwardRequestBody.
  destruct (read_string _) as [t|]; [|congruence].
  destruct (read_string _) as [m|]; [|congruence].
  destruct (read_headers _) as [h|]; [|congruence].
  by intros [= <-].
Qed.

Lemma read_ConvertRequestBody_forward (v : JS.value) (b : ConvertRequestBody) :
  read_ConvertRequestBody v = Some b →
  read_ConvertForwardConfig (JS.field v "forward") = Some (forward b).
Proof.
  unfold read_ConvertRequestBody.
  destruct (read_string _) as [x|]; [|congruence].
  destruct (read_string _) as [y|]; [|congruence].
  destruct (read_string _) as [z|]; [|congruence].
  destruct (read_ConvertForwardConfig _) as [fw|]; [|congruence].
  by intros [= <-].
Qed.

(** The outbound requests of the two handlers, by the body. *)
Lemma forward_handler_calls (b : ForwardRequestBody) :
  snd (forward_handler E b) =
    if JS.truthy_str (targetUrl b) then [forward_config b] else [].
Proof.
  unfold forward_handler. destruct (JS.truthy_str (targetUrl b)); simpl; [|done].
  by destruct (axios_request _ _).
Qed.

Lemma convert_handler_calls (b : ConvertRequestBody) :
  snd (convert_handler E b) =
    match forward b with
    | Some f => if JS.truthy_str (base64Data b) && JS.truthy_str (url f)
                then [convert_config E b f] else []
    | None => []
    end.
Proof.
  unfold convert_handler.
  destruct (JS.truthy_str (base64Data b)); simpl; [|by destruct (forward b)].
  destruct (forward b) as [f|]; [|done].
  destruct (JS.truthy_str (url f)); [|done].
  by destruct (axios_request _ _).
Qed.

(** An exchange that resolves is one that completed. *)
Lemma axios_request_inr (cfg : AxiosRequestConfig) (r : AxiosResponse) :
  axios_request (network E) cfg = inr r → network E cfg = Completed r.
Proof.
  unfold axios_request. destruct (network E cfg) as [r'|cls message]; [|done].
  destruct (validateStatus cfg (res_status r')); [|done]. by intros [= ->].
Qed.

(** Property X5. A convert request whose [base64Data] is absent or empty
    is answered 400 with [{error: "base64Data is required"}], and nothing is
    sent out, also when it names a forward target. *)
Theorem X5_base64Data_required
    (req : Request) (v : JS.value) (b : ConvertRequestBody) :
  dispatch E req = Routed ConvertRoute v →
  read_ConvertRequestBody v = Some b →
  base64Data b = None ∨ base64Data b = Some EmptyString →
  app E req =
    Some ({| status := 400; headers := ∅;
             body := Json (JS.Obj [("error", JS.Str "base64Data is required")]) |},
          []).
Proof.
  intros Hd Hr Hb. rewrite (app_convert E req v b Hd Hr).
  by rewrite (convert_handler_missing E b Hb).
Qed.

(** Property X6. A generic forward request whose [targetUrl] is absent or
    empty is answered 400 with [{error: "targetUrl is required"}], and
    nothing is sent out. *)
Theorem X6_targetUrl_required
    (req : Request) (v : JS.value) (b : ForwardRequestBody) :
  dispatch E req = Routed ForwardRoute v →
  read_ForwardRequestBody v = Some b →
  targetUrl b = None ∨ targetUrl b = Some EmptyString →
  app E req =
    Some ({| status := 400; headers := ∅;
             body := Json (JS.Obj [("error", JS.Str "targetUrl is required")]) |},
          []).
Proof.
  intros Hd Hr Hb. rewrite (app_forward E req v b Hd Hr).
  by rewrite (forward_handler_missing E b Hb).
Qed.

(** Property X7. A request whose body the JSON parser rejects is answered
    without regard to its path and its key, and nothing is sent out: 400
    with the parser's message under [details] when the error is a
    [SyntaxError] carrying the body, and the generic 500 for any other
    parser error. *)
Theorem X7_body_parse_failure (req : Request) (e : JS.error) :
  method req ≠ OPTIONS →
  parsed req = ParseError e →
  (JS.err_class e = JS.SyntaxError → JS.err_has_body e = true →
   app E req =
     Some (json 400 (JS.Obj [ ("error", JS.Str "Invalid JSON in request body");
                              ("details", JS.Str (JS.err_message e)) ]), [])) ∧
  (JS.err_class e ≠ JS.SyntaxError ∨ JS.err_has_body e = false →
   app E req =
     Some (json 500 (JS.Obj [("error", JS.Str "Internal server error")]), [])).
Proof.
  intros Hm Hp.
  assert (app E req = Some (error_handlers e, [])) as ->.
  { unfold app, dispatch. rewrite Hp. by destruct (method req). }
  unfold error_handlers, json_error_handler. split.
  - by intros -> ->.
  - intros [Hc|Hb].
    + by destruct (JS.err_class e).
    + rewrite Hb. by destruct (JS.err_class e).
Qed.

(** Property X8. Without the configured key in [x-api-key], no request,
    whatever its method, path and body, makes the gateway send anything
    out. *)
Theorem X8_no_key_no_outbound
    (req : Request) (resp : Response) (calls : list AxiosRequestConfig) :
  req_hdrs req !! "x-api-key" ≠ Some (API_KEY E) →
  app E req = Some (resp, calls) →
  calls = [].
Proof.
  intros Hk. unfold app.
  destruct (dispatch E req) as [|e|r|rt body|] eqn:Hd; try by intros [= _ <-].
  apply dispatch_routed in Hd as (_ & _ & Hmw & Hrt).
  apply api_key_middleware_next in Hmw as [Hh|[Hr|?]]; [| |done].
  - rewrite (route_exempt _ _ rt (or_introl Hh) Hrt). by intros [= _ <-].
  - rewrite (route_exempt _ _ rt (or_intror Hr) Hrt). by intros [= _ <-].
Qed.

(** Property X9. A request makes the gateway send out at most one
    request, and it sends one exactly when the request is forwarded: a
    generic forward with a target, or a convert request with a non-empty
    [base64Data] and a forward target. *)
Theorem X9_outbound_only_when_forwarding
    (req : Request) (resp : Response) (calls : list AxiosRequestConfig) :
  app E req = Some (resp, calls) →
  (calls = [] ∧ ∀ cfg, ¬ forwards E req cfg) ∨
  (∃ cfg, calls = [cfg] ∧ forwards E req cfg).
Proof.
  intros Happ.
  assert (∀ cfg, forwards E req cfg → calls = [cfg]) as Huniq.
  { intros cfg Hf. apply (forwards_calls E) in Hf. rewrite Happ in Hf.
    by injection Hf. }
  destruct calls as [|cfg calls]; [left; split; [done|]; intros cfg Hf;
                                    by specialize (Huniq cfg Hf)|].
  right. revert Happ. unfold app.
  destruct (dispatch E req) as [|e|r|rt body|] eqn:Hd; try discriminate.
  destruct rt; try discriminate.
  - destruct (read_ForwardRequestBody body) as [b|] eqn:Hr; [|discriminate].
    simpl. intros [= Happ]. apply (f_equal snd) in Happ.
    rewrite (settle_calls E), forward_handler_calls in Happ. simpl in Happ.
    destruct (JS.truthy_str (targetUrl b)) eqn:Ht; [|discriminate].
    injection Happ as <- <-. exists (forward_config b). split; [done|].
    apply forwards_generic. by exists body.
  - destruct (read_ConvertRequestBody body) as [b|] eqn:Hr; [|discriminate].
    simpl. intros [= Happ]. apply (f_equal snd) in Happ.
    rewrite (settle_calls E), convert_handler_calls in Happ. simpl in Happ.
    destruct (forward b) as [f|] eqn:Hf; [|discriminate].
    destruct (JS.truthy_str (base64Data b)) eqn:Hb; [|discriminate].
    destruct (JS.truthy_str (url f)) eqn:Hu; [|discriminate].
    injection Happ as <- <-. exists (convert_config E b f). split; [done|].
    apply forwards_convert. by exists body.
Qed.

(** Property X10. The request the gateway sends out goes to the URL named
    in the inbound body, [targetUrl] or [forward.url], which is not empty,
    and it is sent with a [validateStatus] that accepts every status. *)
Theorem X10_outbound_url_is_callers (req : Request) (cfg : AxiosRequestConfig) :
  forwards E req cfg →
  req_url cfg ≠ EmptyString ∧
  (∀ st, validateStatus cfg st = true) ∧
  ∃ v, parsed req = ParseOk v ∧
       (JS.field v "targetUrl" = JS.Str (req_url cfg) ∨
        JS.field (JS.field v "forward") "url" = JS.Str (req_url cfg)).
Proof.
  intros [b f (v & Hd & Hr & Hb & Hf & Hu) | b (v & Hd & Hr & Ht)].
  - destruct (url f) as [u|] eqn:Hurl; [|discriminate].
    apply truthy_str_Some in Hu. split; [simpl; by rewrite Hurl|]. split; [done|].
    apply dispatch_routed in Hd as (_ & Hp & _ & _).
    exists v. split; [done|]. right.
    apply read_ConvertRequestBody_forward in Hr. rewrite Hf in Hr.
    apply read_ConvertForwardConfig_url in Hr. rewrite Hurl in Hr.
    simpl. rewrite Hurl. by apply read_string_Some.
  - destruct (targetUrl b) as [u|] eqn:Hurl; [|discriminate].
    apply truthy_str_Some in Ht. split; [simpl; by rewrite Hurl|]. split; [done|].
    apply dispatch_routed in Hd as (_ & Hp & _ & _).
    exists v. split; [done|]. left.
    apply read_ForwardRequestBody_targetUrl in Hr. rewrite Hurl in Hr.
    simpl. rewrite Hurl. by apply read_string_Some.
Qed.

(** The answer to an error given to [next] has the status the error
    handlers choose, 400 or 500. *)
Lemma settle_next_status (set : Headers) (e : JS.error)
    (calls : list AxiosRequestConfig) :
  status (fst (settle E (Next set e, calls))) ∈ Link.own_statuses.
Proof.
  simpl. rewrite (on_begun_status E).
  destruct (error_handlers_status e) as [[->| ->] _]; own_status.
Qed.

(** What the answer that relays an exchange holds. *)
Lemma relay_holds (r : AxiosResponse) :
  status (relay r) = res_status r ∧
  (body (relay r) = Json (JS.Obj [ ("status", JS.Num (res_status r));
                                   ("headers", res_headers r);
                                   ("data", res_data r) ]) ∨
   body (relay r) = Empty ∧
   ((res_status r < 200)%Z ∨ res_status r = 204 ∨ res_status r = 205 ∨
    res_status r = 304)).
Proof.
  split; [done|]. unfold relay. simpl.
  destruct (bodiless (res_status r)) eqn:Hb; [|by left].
  right. split; [done|]. apply bodiless_spec in Hb. lia.
Qed.

(** The answer to a forwarding handler's request, by the exchange. *)
Lemma settle_exchange (cfg : AxiosRequestConfig) :
  status (fst (settle E match axios_request (network E) cfg with
                        | inr response => (respond response, [cfg])
                        | inl error => (Next ∅ error, [cfg])
                        end)) ∈ Link.own_statuses ∨
  ∃ r, network E cfg = Completed r ∧
       fst (settle E match axios_request (network E) cfg with
                     | inr response => (respond response, [cfg])
                     | inl error => (Next ∅ error, [cfg])
                     end) = relay r.
Proof.
  destruct (axios_request (network E) cfg) as [e|r] eqn:Hax.
  - left. apply settle_next_status.
  - unfold respond. destruct (valid_status (res_status r)).
    + right. exists r. split; [by apply axios_request_inr | done].
    + left. apply settle_next_status.
Qed.

(** Property X11. Every answer of the gateway either has one of the
    statuses 200, 204, 304, 400, 401, 404 and 500, or relays an upstream
    exchange that completed for the one request sent out: it has the status
    of the upstream's answer, and for body the JSON envelope, or nothing
    when that status is below 200 or is 204, 205 or 304. *)
Theorem X11_answer_statuses
    (req : Request) (resp : Response) (calls : list AxiosRequestConfig) :
  app E req = Some (resp, calls) →
  status resp ∈ Link.own_statuses ∨
  ∃ cfg r,
    calls = [cfg] ∧ network E cfg = Completed r ∧
    status resp = res_status r ∧
    (body resp = Json (JS.Obj [ ("status", JS.Num (res_status r));
                                ("headers", res_headers r);
                                ("data", res_data r) ]) ∨
     body resp = Empty ∧
     ((res_status r < 200)%Z ∨ res_status r = 204 ∨ res_status r = 205 ∨
      res_status r = 304)).
Proof.
  unfold app.
  destruct (dispatch E req) as [|e|r|rt body|] eqn:Hd.
  - intros [= <- _]. left. own_status.
  - intros [= <- _]. left.
    destruct (error_handlers_status e) as [[->| ->] _]; own_status.
  - apply (f_equal (λ s, match s with KeyRejected r => Some r | _ => None end)) in Hd.
    unfold dispatch in Hd. intros [= <- _]. left.
    destruct (method req); try discriminate;
      destruct (parsed req); try discriminate;
      destruct (api_key_middleware E req) as [r'|] eqn:Hmw; try discriminate;
      try (destruct (route _ _); discriminate);
      apply api_key_middleware_rejects in Hmw; injection Hd as <-; subst r';
      own_status.
  - destruct rt.
    + destruct (read_ForwardRequestBody body) as [b|]; [|discriminate]. simpl.
      unfold forward_handler.
      destruct (JS.truthy_str (targetUrl b)); simpl;
        [|intros [= <- _]; left; own_status].
      intros [= Hs].
      destruct (settle_exchange (forward_config b)) as [H|(r0 & Hn & Hr)].
      * left. by rewrite Hs in H.
      * right. exists (forward_config b), r0.
        apply (f_equal snd) in Hs as Hc. rewrite (settle_calls E) in Hc.
        rewrite Hs in Hr. simpl in Hr, Hc. subst resp.
        split; [by destruct (axios_request _ _)|]. split; [done|].
        apply relay_holds.
    + destruct (read_ConvertRequestBody body) as [b|]; [|discriminate]. simpl.
      unfold convert_handler.
      destruct (JS.truthy_str (base64Data b)); simpl;
        [|intros [= <- _]; left; own_status].
      assert (∀ resp' calls',
                settle E (send_file (mimeType_of b) (fileName_of b) (buffer_of b), [])
                  = (resp', calls') → status resp' ∈ Link.own_statuses) as Hdirect.
      { intros resp' calls'.
        destruct (send_file_cases (mimeType_of b) (fileName_of b) (buffer_of b))
          as [(_ & _ & r1 & -> & H200) | (_ & set & e & -> & _)].
        - intros [= <- _]. rewrite H200. own_status.
        - intros Hs. apply (f_equal fst) in Hs. simpl fst in Hs at 2. subst resp'.
          apply settle_next_status. }
      destruct (forward b) as [f|];
        [|intros [= Hs]; left; by apply (Hdirect _ _ Hs)].
      destruct (JS.truthy_str (url f));
        [|intros [= Hs]; left; by apply (Hdirect _ _ Hs)].
      intros [= Hs].
      destruct (settle_exchange (convert_config E b f)) as [H|(r0 & Hn & Hr)].
      * left. by rewrite Hs in H.
      * right. exists (convert_config E b f), r0.
        apply (f_equal snd) in Hs as Hc. rewrite (settle_calls E) in Hc.
        rewrite Hs in Hr. simpl in Hr, Hc. subst resp.
        split; [by destruct (axios_request _ _)|]. split; [done|].
        apply relay_holds.
    + intros [= <- _]. left. unfold health_handler.
      destruct (fresh E req); own_status.
    + intros [= <- _]. left. own_status.
  - intros [= <- _]. left. own_status.
Qed.

Lemma read_record_lookup (props : list (string * JS.value)) (m : Headers)
    (k x : string) :
  read_record props = Some m → m !! k = Some x → JS.assoc k props = JS.Str x.
Proof.
  revert m. induction props as [|[k' v'] props IH]; intros m; simpl.
  - intros [= <-]. by rewrite lookup_empty.
  - destruct v'; try discriminate.
    destruct (read_record props) as [m'|]; [|discriminate].
    intros [= <-]. destruct (String.eqb_spec k k') as [->|Hne].
    + rewrite lookup_insert_eq. by intros [= ->].
    + rewrite lookup_insert_ne by done. by apply IH.
Qed.

Lemma read_headers_lookup (h : JS.value) (o : option Headers) (k x : string) :
  read_headers h = Some o → default ∅ o !! k = Some x → JS.field h k = JS.Str x.
Proof.
  destruct h; simpl; try discriminate.
  - intros [= <-]. simpl. by rewrite lookup_empty.
  - destruct (read_record props) as [m|] eqn:Hr; [|discriminate].
    intros [= <-]. simpl. by apply read_record_lookup.
Qed.

Lemma read_ConvertForwardConfig_headers (x : JS.value) (f : ConvertForwardConfig) :
  read_ConvertForwardConfig x = Some (Some f) →
  read_headers (JS.field x "headers") = Some (cfg_headers f).
Proof.
  destruct x; simpl; try congruence.
  destruct (read_string _) as [u|]; [|congruence].
  destruct (read_string _) as [m|]; [|congruence].
  destruct (read_headers _) as [h|]; [|congruence].
  by intros [= <-].
Qed.

Lemma read_ForwardRequestBody_headers (v : JS.value) (b : ForwardRequestBody) :
  read_ForwardRequestBody v = Some b →
  read_headers (JS.field v "headers") = Some (fwd_headers b).
Proof.
  unfold read_ForwardRequestBody.
  destruct (read_string _) as [t|]; [|congruence].
  destruct (read_string _) as [m|]; [|congruence].
  destruct (read_headers _) as [h|]; [|congruence].
  by intros [= <-].
Qed.

(** Property X21. The headers of the request sent out come from the
    inbound body alone: each is a property of [headers] or
    [forward.headers] there with the same value, or it is the multipart
    [content-type] of the form. A header of the inbound request itself, the
    key in [x-api-key] among them, is never passed on. *)
Theorem X21_outbound_headers_from_body
    (req : Request) (cfg : AxiosRequestConfig) (k x : string) :
  forwards E req cfg →
  req_headers cfg !! k = Some x →
  (k = "content-type" ∧ x = "multipart/form-data; boundary=" ++ boundary E) ∨
  ∃ v, parsed req = ParseOk v ∧
       (JS.field (JS.field v "headers") k = JS.Str x ∨
        JS.field (JS.field (JS.field v "forward") "headers") k = JS.Str x).
Proof.
  intros [b f (v & Hd & Hr & Hb & Hf & Hu) | b (v & Hd & Hr & Ht)];
    apply dispatch_routed in Hd as (_ & Hp & _ & _); simpl.
  - rewrite spread_lookup.
    destruct (default ∅ (cfg_headers f) !! k) as [y|] eqn:Hk.
    + intros [= ->]. right. exists v. split; [done|]. right.
      apply read_ConvertRequestBody_forward in Hr. rewrite Hf in Hr.
      apply read_ConvertForwardConfig_headers in Hr.
      by apply (read_headers_lookup _ _ _ _ Hr).
    + unfold getHeaders. intros [<- <-]%lookup_singleton_Some. by left.
  - intros Hk. right. exists v. split; [done|]. left.
    apply read_ForwardRequestBody_headers in Hr.
    by apply (read_headers_lookup _ _ _ _ Hr).
Qed.

End GatewayMore.

Section GatewayMoreCases.
Import Gateway Cases.

(** The body [{forward: ...}] without [base64Data], under the configured
    key. *)
Lemma X5_base64Data_required_witness :
  dispatch (answering refused)
    (post convert_path (Some "NSZoho@8080")
       (ParseOk (JS.Obj [("forward", zoho [authorization])]))) =
    Routed ConvertRoute (JS.Obj [("forward", zoho [authorization])]) ∧
  app (answering refused)
    (post convert_path (Some "NSZoho@8080")
       (ParseOk (JS.Obj [("forward", zoho [authorization])]))) =
    Some ({| status := 400; headers := ∅;
             body := Json (JS.Obj [("error", JS.Str "base64Data is required")]) |},
          []).
Proof.
  split; [reflexivity|].
  apply (X5_base64Data_required (answering refused) _
           (JS.Obj [("forward", zoho [authorization])])
           {| base64Data := None; fileName := None; mimeType := None;
              forward := Some (zoho_config token_only) |});
    [reflexivity | reflexivity | left; reflexivity].
Defined.

Lemma X6_targetUrl_required_witness :
  dispatch (answering refused)
    (post "/api/forward" (Some "NSZoho@8080")
       (ParseOk (JS.Obj [("targetUrl", JS.Str EmptyString)]))) =
    Routed ForwardRoute (JS.Obj [("targetUrl", JS.Str EmptyString)]) ∧
  app (answering refused)
    (post "/api/forward" (Some "NSZoho@8080")
       (ParseOk (JS.Obj [("targetUrl", JS.Str EmptyString)]))) =
    Some ({| status := 400; headers := ∅;
             body := Json (JS.Obj [("error", JS.Str "targetUrl is required")]) |},
          []).
Proof.
  split; [reflexivity|].
  apply (X6_targetUrl_required (answering refused) _
           (JS.Obj [("targetUrl", JS.Str EmptyString)])
           {| targetUrl := Some EmptyString; fwd_method := None;
              fwd_headers := None; fwd_body := JS.Undefined |});
    [reflexivity | reflexivity | right; reflexivity].
Defined.

Lemma X7_body_parse_failure_witness :
  method malformed ≠ OPTIONS ∧
  app (answering refused) malformed =
    Some (json 400 (JS.Obj [ ("error", JS.Str "Invalid JSON in request body");
                             ("details", JS.Str "Unexpected end of JSON input") ]),
          []).
Proof.
  split; [discriminate|].
  destruct (X7_body_parse_failure (answering refused) malformed
              {| JS.err_class := JS.SyntaxError;
                 JS.err_message := "Unexpected end of JSON input";
                 JS.err_has_body := true |}) as [H _];
    [discriminate | reflexivity |].
  apply H; reflexivity.
Defined.

(** A convert request with a forward target and a wrong key. *)
Lemma X8_no_key_no_outbound_witness :
  req_hdrs (post convert_path (Some "guess") (ParseOk (hello (zoho [authorization]))))
    !! "x-api-key" ≠ Some (API_KEY (answering (Completed (upstream 201)))) ∧
  app (answering (Completed (upstream 201)))
      (post convert_path (Some "guess") (ParseOk (hello (zoho [authorization])))) =
    Some (unauthorized, []) ∧
  @nil AxiosRequestConfig = [].
Proof.
  split; [discriminate|]. split; [reflexivity|].
  apply (X8_no_key_no_outbound (answering (Completed (upstream 201)))
           (post convert_path (Some "guess")
              (ParseOk (hello (zoho [authorization]))))
           unauthorized []);
    [discriminate | reflexivity].
Defined.

Lemma X9_outbound_only_when_forwarding_witness :
  app (answering (Completed (upstream 201))) (convert (zoho [authorization])) =
    Some (relay (upstream 201),
          [convert_config (answering (Completed (upstream 201)))
             (hello_body (Some (zoho_config token_only))) (zoho_config token_only)]) ∧
  ((([convert_config (answering (Completed (upstream 201)))
        (hello_body (Some (zoho_config token_only))) (zoho_config token_only)] = []) ∧
    ∀ cfg, ¬ forwards (answering (Completed (upstream 201)))
               (convert (zoho [authorization])) cfg) ∨
   ∃ cfg,
     [convert_config (answering (Completed (upstream 201)))
        (hello_body (Some (zoho_config token_only))) (zoho_config token_only)] = [cfg] ∧
     forwards (answering (Completed (upstream 201)))
       (convert (zoho [authorization])) cfg).
Proof.
  split; [reflexivity|].
  apply (X9_outbound_only_when_forwarding (answering (Completed (upstream 201)))
           (convert (zoho [authorization])) (relay (upstream 201))).
  reflexivity.
Defined.

Lemma X10_outbound_url_is_callers_witness :
  forwards (answering refused) generic (forward_config generic_body) ∧
  req_url (forward_config generic_body) = "https://example.org/hook" ∧
  req_url (forward_config generic_body) ≠ EmptyString.
Proof.
  pose proof (forwards_generic _ _ _ (generic_forwards_hook refused)) as H.
  split; [exact H|]. split; [reflexivity|].
  apply (X10_outbound_url_is_callers (answering refused) generic _ H).
Defined.

(** An upstream answer of status 304 is relayed without a body. *)
Lemma X11_answer_statuses_witness :
  app (answering (Completed (upstream 304))) (convert (zoho [authorization])) =
    Some ({| status := 304; headers := ∅; body := Empty |},
          [convert_config (answering (Completed (upstream 304)))
             (hello_body (Some (zoho_config token_only))) (zoho_config token_only)]) ∧
  ((304 : Z) ∈ Link.own_statuses ∨
   ∃ cfg r,
     [convert_config (answering (Completed (upstream 304)))
        (hello_body (Some (zoho_config token_only))) (zoho_config token_only)] = [cfg] ∧
     network (answering (Completed (upstream 304))) cfg = Completed r ∧
     304 = res_status r ∧
     (Empty = Json (JS.Obj [ ("status", JS.Num (res_status r));
                             ("headers", res_headers r);
                             ("data", res_data r) ]) ∨
      Empty = Empty ∧
      ((res_status r < 200)%Z ∨ res_status r = 204 ∨ res_status r = 205 ∨
       res_status r = 304))).
Proof.
  split; [reflexivity|].
  apply (X11_answer_statuses (answering (Completed (upstream 304)))
           (convert (zoho [authorization]))
           {| status := 304; headers := ∅; body := Empty |}).
  reflexivity.
Defined.

Lemma X21_outbound_headers_from_body_witness :
  forwards (answering (Completed (upstream 201))) (convert (zoho [authorization]))
    (convert_config (answering (Completed (upstream 201)))
       (hello_body (Some (zoho_config token_only))) (zoho_config token_only)) ∧
  req_headers
    (convert_config (answering (Completed (upstream 201)))
       (hello_body (Some (zoho_config token_only))) (zoho_config token_only))
    !! "Authorization" = Some "Zoho-oauthtoken 1000.abc" ∧
  req_headers
    (convert_config (answering (Completed (upstream 201)))
       (hello_body (Some (zoho_config token_only))) (zoho_config token_only))
    !! "x-api-key" = None ∧
  (("Authorization" = "content-type" ∧
    "Zoho-oauthtoken 1000.abc" =
      "multipart/form-data; boundary=" ++
      boundary (answering (Completed (upstream 201)))) ∨
   ∃ v, parsed (convert (zoho [authorization])) = ParseOk v ∧
        (JS.field (JS.field v "headers") "Authorization" =
           JS.Str "Zoho-oauthtoken 1000.abc" ∨
         JS.field (JS.field (JS.field v "forward") "headers") "Authorization" =
           JS.Str "Zoho-oauthtoken 1000.abc")).
Proof.
  pose proof (forwards_convert _ _ _ _
                (convert_forwards_hello (Completed (upstream 201)))) as H.
  split; [exact H|]. split; [reflexivity|]. split; [reflexivity|].
  apply (X21_outbound_headers_from_body (answering (Completed (upstream 201)))
           (convert (zoho [authorization])) _ "Authorization"
           "Zoho-oauthtoken 1000.abc" H).
  reflexivity.
Defined.

End GatewayMoreCases.

(** ** The second variant against the first *)

Section VariantFacts.
Import Gateway.

Variable E : Env.

Lemma axios_request_error network cfg (e : JS.error) :
  axios_request network cfg = inl e → JS.err_has_body e = false.
Proof.
  unfold axios_request. destruct (network cfg) as [r|cls message].
  - destruct (validateStatus cfg (res_status r)); [done|]. by intros [= <-].
  - by intros [= <-].
Qed.

(** On an error without a [body] property the two error chains agree. *)
Lemma settle_next (set : Headers) (e : JS.error) (calls : list AxiosRequestConfig) :
  JS.err_has_body e = false →
  settle E (Next set e, calls) = GatewayRaw.settle E (Next set e, calls).
Proof. intros He. simpl. by rewrite (error_handlers_no_body e He). Qed.

(** On the outcome of a forwarding handler the two error chains agree: an
    error of axios falls through the JSON error handler. *)
Lemma settle_axios (cfg : AxiosRequestConfig) :
  settle E match axios_request (network E) cfg with
           | inr response => (respond response, [cfg])
           | inl error => (Next ∅ error, [cfg])
           end =
  GatewayRaw.settle E match axios_request (network E) cfg with
                      | inr response => (respond response, [cfg])
                      | inl error => (Next ∅ error, [cfg])
                      end.
Proof.
  destruct (axios_request (network E) cfg) as [e|r] eqn:Hax.
  - apply settle_next. by apply (axios_request_error _ _ e Hax).
  - unfold respond. destruct (valid_status (res_status r)); [done|].
    by apply settle_next.
Qed.

Lemma settle_forward_handler (b : ForwardRequestBody) :
  settle E (forward_handler E b) = GatewayRaw.settle E (forward_handler E b).
Proof.
  unfold forward_handler. destruct (JS.truthy_str (targetUrl b)); simpl; [|done].
  apply settle_axios.
Qed.

(** So they do on the closing statements of the convert handler. *)
Lemma settle_send_file (mimeType fileName : string) (buffer : list Z) :
  settle E (send_file mimeType fileName buffer, []) =
  GatewayRaw.settle E (send_file mimeType fileName buffer, []).
Proof.
  destruct (send_file_cases mimeType fileName buffer)
    as [(_ & _ & r & -> & _) | (_ & set & e & -> & He)]; [done|].
  by apply settle_next.
Qed.

Lemma read_string_truthy (x : JS.value) (o : option string) :
  read_string x = Some o → JS.truthy x = JS.truthy_str o.
Proof. destruct x; simpl; try congruence; by intros [= <-]. Qed.

Lemma read_forward_url (v : JS.value) (b : ConvertRequestBody) :
  read_ConvertRequestBody v = Some b →
  JS.truthy (JS.field (JS.field v "forward") "url") =
    JS.truthy_str (forward_url (forward b)).
Proof.
  intros Hr%read_ConvertRequestBody_forward.
  destruct (forward b) as [f|].
  - apply read_ConvertForwardConfig_url in Hr. by apply read_string_truthy.
  - simpl. destruct (JS.field v "forward"); simpl in *; try congruence.
    destruct (read_string _); [|congruence].
    destruct (read_string _); [|congruence].
    destruct (read_headers _); congruence.
Qed.

(** Without a forward target the two convert handlers are the same. *)
Lemma convert_handlers_agree (b : ConvertRequestBody) :
  JS.truthy_str (forward_url (forward b)) = false →
  GatewayRaw.convert_handler E b = convert_handler E b.
Proof.
  intros Hu. unfold GatewayRaw.convert_handler, convert_handler.
  destruct (JS.truthy_str (base64Data b)); simpl; [|done].
  destruct (forward b) as [f|]; [|done]. simpl in Hu. by rewrite Hu.
Qed.

Lemma with_key_passes (req : Request) :
  api_key_middleware E (Link.with_key E req) = None.
Proof.
  apply api_key_middleware_next. right. right. simpl. apply lookup_insert_eq.
Qed.

Lemma route_without_test (m : Method) (p : string) :
  route m p ≠ Some TestRoute → GatewayRaw.route m p = route m p.
Proof.
  unfold route, GatewayRaw.route. destruct m; try done.
  destruct (path_matches "/api/forward" p); [done|].
  destruct (path_matches "/api/convert/base64-to-binary" p); [done|].
  by destruct (path_matches "/api/test" p).
Qed.

(** Property X12. The second variant of the server has no key check: on
    every request whose body parsed, other than one to the test endpoint or
    a convert request naming a forward URL, it answers, whatever the
    headers, what the first server answers to the same request carrying the
    configured key. *)
Theorem X12_variant_is_keyless (req : Request) (v : JS.value) :
  parsed req = ParseOk v →
  route (method req) (path req) ≠ Some TestRoute →
  (route (method req) (path req) = Some ConvertRoute →
   JS.truthy (JS.field (JS.field v "forward") "url") = false) →
  GatewayRaw.app E req = app E (Link.with_key E req).
Proof.
  intros Hp Ht Hu. unfold GatewayRaw.app, app, dispatch.
  rewrite with_key_passes. simpl. rewrite Hp.
  rewrite (route_without_test _ _ Ht).
  assert (health_handler E (Link.with_key E req) = health_handler E req) as Hh.
  { unfold health_handler, fresh. simpl.
    rewrite !lookup_insert_ne by done. by rewrite delete_insert_eq. }
  destruct (method req) eqn:Hm; try done;
    (destruct (route _ (path req)) as [[| | |]|] eqn:Hrt; try done;
     [ destruct (read_ForwardRequestBody v); simpl; [|done];
       by rewrite settle_forward_handler
     | destruct (read_ConvertRequestBody v) as [b|] eqn:Hr; simpl; [|done];
       rewrite convert_handlers_agree
         by (rewrite <- (read_forward_url v b Hr); by apply Hu);
       rewrite (read_forward_url v b Hr) in Hu; specialize (Hu eq_refl);
       unfold convert_handler;
       destruct (JS.truthy_str (base64Data b)); simpl; [|done];
       destruct (forward b) as [f|]; [|by rewrite settle_send_file];
       simpl in Hu; rewrite Hu; by rewrite settle_send_file
     | by rewrite Hh ]).
Qed.

End VariantFacts.

Section VariantCases.
Import Gateway Cases.

(** A convert request without forward target and without any key. *)
Lemma X12_variant_is_keyless_witness :
  parsed (post convert_path None (ParseOk (hello JS.Undefined))) =
    ParseOk (hello JS.Undefined) ∧
  GatewayRaw.app (answering refused)
    (post convert_path None (ParseOk (hello JS.Undefined))) =
  app (answering refused)
    (Link.with_key (answering refused)
       (post convert_path None (ParseOk (hello JS.Undefined)))) ∧
  GatewayRaw.app (answering refused)
    (post convert_path None (ParseOk (hello JS.Undefined))) =
  Some (send (<["Content-Disposition" := disposition "test.txt"]>
               (<["Content-Type" := "text/plain"]> ∅))
             (Base64.bytes_of "Hello, World!"), []).
Proof.
  split; [reflexivity|]. split; [|reflexivity].
  apply (X12_variant_is_keyless (answering refused) _ (hello JS.Undefined));
    [reflexivity | discriminate | reflexivity].
Defined.

End VariantCases.

(** ** The Suitelet beyond the classification *)

Section SuiteletMore.
Import Suitelet.

Context {World : Type} (P : Platform World).

(** Every MIME type of the table is a non-empty string, so the test
    [!mimeType] fails exactly for the types that are not in the table. *)
Lemma getMimeType_truthy (nsType mimeType : string) :
  getMimeType nsType = Some mimeType → mimeType ≠ EmptyString.
Proof.
  unfold getMimeType. intros H.
  assert (map_Forall (λ _ m, m ≠ EmptyString) mimeMap) as Hall.
  { apply (bool_decide_unpack _). vm_compute. exact I. }
  by apply (Hall nsType).
Qed.

Lemma try_block_not_skipped (fileObj : File) posted (entry : JS.value) :
  try_block P fileObj posted = inr entry →
  JS.field entry "status" ≠ JS.Str "skipped".
Proof.
  intros [_ [H|H]]%try_block_entry; rewrite H; discriminate.
Qed.

(** What one call of the callback pushes and does to the world, by the
    type of the file. *)
Lemma callback_by_type (fileId : string) (results : list JS.value) (w : World) :
  ∃ entry,
    callback P fileId (results, w) =
      (true, ((results ++ [entry])%list, posted_all P (mapped P [fileId]) w)) ∧
    (getMimeType (fileType (file_load P fileId)) = None →
     entry = skipped_entry (file_load P fileId)) ∧
    (JS.field entry "status" = JS.Str "skipped" →
     getMimeType (fileType (file_load P fileId)) = None).
Proof.
  unfold callback, mapped. simpl.
  destruct (getMimeType (fileType (file_load P fileId))) as [mimeType|] eqn:Hm; simpl.
  - destruct (post_file P (file_load P fileId) mimeType w) as [posted w'] eqn:Hp.
    simpl.
    destruct (try_block P (file_load P fileId) posted) as [e|entry] eqn:Ht.
    + eexists. split; [done|]. split; [done|]. simpl. discriminate.
    + eexists. split; [done|]. split; [done|].
      intros Hs. by apply try_block_not_skipped in Ht.
  - eexists. split; [done|]. split; done.
Qed.

Lemma mapped_cons (fileId : string) (found : list string) :
  mapped P (fileId :: found) = (mapped P [fileId] ++ mapped P found)%list.
Proof.
  unfold mapped. simpl.
  by destruct (getMimeType (fileType (file_load P fileId))).
Qed.

Lemma posted_all_app (l1 l2 : list (File * string)) (w : World) :
  posted_all P (l1 ++ l2) w = posted_all P l2 (posted_all P l1 w).
Proof. unfold posted_all. apply fold_left_app. Qed.

Lemma each_by_type (found : list string) (results : list JS.value) (w : World) :
  ∃ new,
    each (callback P) found (results, w) =
      ((results ++ new)%list, posted_all P (mapped P found) w) ∧
    Forall2 (λ fileId entry,
               (getMimeType (fileType (file_load P fileId)) = None →
                entry = skipped_entry (file_load P fileId)) ∧
               (JS.field entry "status" = JS.Str "skipped" →
                getMimeType (fileType (file_load P fileId)) = None))
            found new.
Proof.
  revert results w. induction found as [|fileId found IH]; intros results w.
  - exists []. simpl. by rewrite app_nil_r.
  - destruct (callback_by_type fileId results w) as (entry & Hcb & H1 & H2).
    destruct (IH (results ++ [entry])%list (posted_all P (mapped P [fileId]) w))
      as (new & Heach & Hall).
    exists (entry :: new). split.
    + cbn [each]. rewrite Hcb, Heach.
      by rewrite <- app_assoc, (mapped_cons fileId found), posted_all_app.
    + by constructor.
Qed.

(** Property X13. In the report of a run an entry is [skipped] exactly
    when the type of its file is not in the MIME table, and it then holds
    the file name and the reason [Unsupported file type: <type>]. *)
Theorem X13_skipped_iff_unmapped (found : list string) (w : World) :
  ∃ results,
    JS.field (fst (onRequest P found w)) "results" = JS.Arr results ∧
    Forall2 (λ fileId entry,
               (getMimeType (fileType (file_load P fileId)) = None →
                entry = JS.Obj
                  [ ("fileName", JS.Str (name (file_load P fileId)));
                    ("status", JS.Str "skipped");
                    ("reason", JS.Str ("Unsupported file type: " ++
                                       fileType (file_load P fileId))) ]) ∧
               (JS.field entry "status" = JS.Str "skipped" →
                getMimeType (fileType (file_load P fileId)) = None))
            found results.
Proof.
  unfold onRequest.
  destruct (each_by_type found [] w) as (new & -> & Hall).
  by exists new.
Qed.

(** Property X14. A run changes the world outside by exactly one post per
    file of a mapped type among the files it reaches, in the order of the
    search; a file of another type is never posted. The files reached are
    those before the first one that does not load, and all of them when
    every file loads. *)
Theorem X14_one_post_per_mapped_file (found : list string) (w : World) :
  snd (run P found w) = posted_all P (mapped P (reached P found)) w ∧
  ((∀ fileId, fileId ∈ found → load_error P fileId = None) →
   reached P found = found).
Proof.
  split; [|apply reached_loaded].
  unfold run. destruct (each_raising_reached P found ([], w)) as [H1 _].
  destruct (each_by_type (reached P found) [] w) as (new & Heach & _).
  rewrite Heach in H1.
  destruct (each_raising (visit P) found ([], w)) as [[e|] [results w']];
    simpl in H1; by injection H1 as _ ->.
Qed.

(** Property X15. An answer of the gateway that parses to [null] is
    recorded as [error] with the text of a [TypeError]; every other parsed
    answer is recorded as [success] or [failed] with its [status] property
    as [zohoStatus], and as [success] exactly when that property is the
    number 200 or 201. *)
Theorem X15_parsed_answer_classes
    (fileObj : File) (response : ClientResponse) (mr : JS.value) :
  JSON_parse P (body response) = inr mr →
  (mr = JS.Null →
   ∃ e, try_block P fileObj (inr response) = inl e ∧
        JS.err_class e = JS.TypeError) ∧
  (mr ≠ JS.Null → mr ≠ JS.Undefined →
   ∃ entry,
     try_block P fileObj (inr response) = inr entry ∧
     JS.field entry "zohoStatus" = JS.field mr "status" ∧
     (JS.field entry "status" = JS.Str "success" ∨
      JS.field entry "status" = JS.Str "failed") ∧
     (JS.field entry "status" = JS.Str "success" ↔
      JS.field mr "status" = JS.Num 200 ∨ JS.field mr "status" = JS.Num 201)).
Proof.
  intros Hparse. unfold try_block. rewrite Hparse. split.
  - intros ->. simpl. by eexists.
  - intros Hn Hu.
    assert (JS.get mr "status" = inr (JS.field mr "status") ∧
            JS.get mr "data" = inr (JS.field mr "data")) as [-> ->]
      by (by destruct mr).
    eexists. split; [done|]. split; [done|]. simpl.
    destruct (JS.field mr "status") as [| | |n| | |]; simpl;
      try (split; [by right|]; split; [discriminate|]; intros [?|?]; discriminate).
    destruct (Z.eqb_spec n 200) as [->|H200]; simpl.
    { split; [by left|]. split; [by left | done]. }
    destruct (Z.eqb_spec n 201) as [->|H201]; simpl.
    { split; [by left|]. split; [by right | done]. }
    split; [by right|]. split; [discriminate|]. intros [[= ?]|[= ?]]; done.
Qed.

End SuiteletMore.

Section SuiteletMoreCases.
Import Suitelet Cases.

(** The answer [limited] of the scripted platform parses to an envelope
    with status 429. *)
Lemma X15_parsed_answer_classes_witness :
  JSON_parse scripted (body limited) =
    inr (JS.Obj [ ("status", JS.Num 429); ("data", JS.Obj [("code", JS.Num 44)]) ]) ∧
  ∃ entry,
    try_block scripted (file_load scripted "1") (inr limited) = inr entry ∧
    JS.field entry "zohoStatus" = JS.Num 429.
Proof.
  split; [reflexivity|].
  destruct (X15_parsed_answer_classes scripted (file_load scripted "1") limited
              (JS.Obj [ ("status", JS.Num 429);
                        ("data", JS.Obj [("code", JS.Num 44)]) ]) eq_refl)
    as [_ H].
  destruct H as (entry & Ht & Hz & _); [discriminate | discriminate |].
  exists entry. split; [exact Ht | exact Hz].
Defined.

Lemma X14_one_post_per_mapped_file_witness :
  snd (run scripted ["1"; "2"; "3"] [inr created; inr limited]) =
    posted_all scripted (mapped scripted ["1"; "2"; "3"]) [inr created; inr limited] ∧
  posted_all scripted (mapped scripted ["1"; "2"; "3"]) [inr created; inr limited] = [].
Proof.
  destruct (X14_one_post_per_mapped_file scripted ["1"; "2"; "3"]
              [inr created; inr limited]) as [H1 H2].
  split; [|reflexivity].
  rewrite H1, H2; [reflexivity|]. intros fileId _. reflexivity.
Defined.

(** With a second attachment that does not load, only the first is
    posted. *)
Example one_post_before_the_throw :
  snd (run oversized ["1"; "2"; "3"] [inr created; inr limited]) = [inr limited] ∧
  reached oversized ["1"; "2"; "3"] = ["1"].
Proof. split; reflexivity. Qed.

End SuiteletMoreCases.

(** ** The Suitelet and the gateway together *)

Section LinkFacts.
Import Gateway Link.

Context {World : Type} (P : Suitelet.Platform World).
Variable E : Env.

Lemma upload_url_nonempty : JS.truthy_str (Some (upload_url P)) = true.
Proof.
  unfold upload_url, JS.truthy_str.
  by destruct (Suitelet.zoho_cud_api P).
Qed.

(** The configurations under which the key of the script is the key of the
    gateway. *)
Lemma API_KEY_default :
  env_API_KEY E = None ∨ env_API_KEY E = Some EmptyString ∨
  env_API_KEY E = Some Suitelet.apiKey →
  API_KEY E = Suitelet.apiKey.
Proof. unfold API_KEY. by intros [->|[->| ->]]. Qed.

Lemma arriving_routed (payload : JS.value) :
  API_KEY E = Suitelet.apiKey →
  dispatch E (arriving payload) = Routed ConvertRoute payload.
Proof.
  intros Hk. apply dispatch_routed. split; [done|]. split; [done|]. split; [|done].
  apply api_key_middleware_next. right. right. simpl.
  by rewrite lookup_insert_eq, Hk.
Qed.

Lemma arriving_read (fileObj : Suitelet.File) (mimeType : string) :
  read_ConvertRequestBody (Suitelet.payload P fileObj mimeType) =
    Some (body_of P fileObj mimeType).
Proof. reflexivity. Qed.

(** The request made of a post whose body is within the limit of the
    parser is the payload arriving as it was sent. *)
Lemma received_within (fileObj : Suitelet.File) (mimeType : string) :
  within_limit (Suitelet.JSON_stringify P (Suitelet.payload P fileObj mimeType)) = true →
  received P fileObj mimeType = arriving (Suitelet.payload P fileObj mimeType).
Proof. intros H. unfold received. by rewrite H. Qed.

(** A post whose body is over the limit is answered 500 by the basic error
    handler, whatever the key, and nothing is sent out. *)
Lemma received_over (fileObj : Suitelet.File) (mimeType : string) :
  within_limit (Suitelet.JSON_stringify P (Suitelet.payload P fileObj mimeType)) = false →
  app E (received P fileObj mimeType) =
    Some (json 500 (JS.Obj [("error", JS.Str "Internal server error")]), []).
Proof. intros H. unfold received. by rewrite H. Qed.

(** The request is made of what the script gives to [https.post]: the URL
    is the origin of the gateway followed by the path, the two headers are
    those of the request, and the body is the text whose size and value
    decide what [express.json] makes of it. *)
Lemma received_of_post (fileObj : Suitelet.File) (mimeType : string) :
  Suitelet.post_file P fileObj mimeType =
    Suitelet.https_post P
      (gateway_origin ++ path (received P fileObj mimeType))
      [ ("Content-Type", default EmptyString
                           (req_hdrs (received P fileObj mimeType) !! "content-type"));
        ("x-api-key", default EmptyString
                        (req_hdrs (received P fileObj mimeType) !! "x-api-key")) ]
      (Suitelet.JSON_stringify P (Suitelet.payload P fileObj mimeType)) ∧
  method (received P fileObj mimeType) = POST ∧
  parsed (received P fileObj mimeType) =
    if within_limit (Suitelet.JSON_stringify P (Suitelet.payload P fileObj mimeType))
    then ParseOk (Suitelet.payload P fileObj mimeType)
    else ParseError too_large.
Proof.
  unfold received.
  by destruct (within_limit
                 (Suitelet.JSON_stringify P (Suitelet.payload P fileObj mimeType))).
Qed.

Lemma received_forwards (fileObj : Suitelet.File) (mimeType : string) :
  Suitelet.contents fileObj ≠ EmptyString →
  API_KEY E = Suitelet.apiKey →
  within_limit (Suitelet.JSON_stringify P (Suitelet.payload P fileObj mimeType)) = true →
  convert_forwards E (received P fileObj mimeType)
    (body_of P fileObj mimeType) (target_of P).
Proof.
  intros Hc Hk Hl. rewrite (received_within _ _ Hl).
  exists (Suitelet.payload P fileObj mimeType).
  split; [by apply arriving_routed|]. split; [apply arriving_read|].
  split; [by apply truthy_str_Some|]. split; [done|]. apply upload_url_nonempty.
Qed.

(** Property X16. With the gateway under its default key (or configured
    with the key the script hard-codes), the request made of the post that
    the Suitelet makes for a file with non-empty contents (the URL, the two
    headers and the text it gives to [https.post]) is forwarded by the
    gateway in one request when its body is within the 10mb limit of the
    JSON parser: to the upload URL, by [POST], with the [Authorization]
    and [Accept] headers of the script and the multipart [content-type],
    and with a form whose single part [attachment] holds the decoded
    contents, the file name and the MIME type. A post with a larger body is
    answered 500 and nothing is forwarded. *)
Theorem X16_suitelet_post_is_forwarded
    (fileObj : Suitelet.File) (mimeType : string) :
  Suitelet.contents fileObj ≠ EmptyString →
  env_API_KEY E = None ∨ env_API_KEY E = Some EmptyString ∨
  env_API_KEY E = Some Suitelet.apiKey →
  Suitelet.post_file P fileObj mimeType =
    Suitelet.https_post P
      (gateway_origin ++ path (received P fileObj mimeType))
      [ ("Content-Type", "application/json"); ("x-api-key", Suitelet.apiKey) ]
      (Suitelet.JSON_stringify P (Suitelet.payload P fileObj mimeType)) ∧
  (within_limit (Suitelet.JSON_stringify P (Suitelet.payload P fileObj mimeType)) = true →
   snd <$> app E (received P fileObj mimeType) =
     Some [convert_config E (body_of P fileObj mimeType) (target_of P)] ∧
   req_url (convert_config E (body_of P fileObj mimeType) (target_of P)) =
     Suitelet.zoho_cud_api P ++ "bills/" ++ Suitelet.zoho_ID ++ "/attachment"
     ++ Suitelet.OrganizationID P ∧
   req_method (convert_config E (body_of P fileObj mimeType) (target_of P)) = "POST" ∧
   req_headers (convert_config E (body_of P fileObj mimeType) (target_of P))
     !! "Authorization" =
     Some ("Zoho-oauthtoken " ++ JS.to_string (Suitelet.access_token P)) ∧
   req_headers (convert_config E (body_of P fileObj mimeType) (target_of P))
     !! "Accept" = Some "*/*" ∧
   req_headers (convert_config E (body_of P fileObj mimeType) (target_of P))
     !! "content-type" = Some ("multipart/form-data; boundary=" ++ boundary E) ∧
   req_data (convert_config E (body_of P fileObj mimeType) (target_of P)) =
     DataForm {| form_boundary := boundary E;
                 form_parts :=
                   [ {| part_field := "attachment";
                        part_value := Base64.decode (Suitelet.contents fileObj);
                        part_filename := Suitelet.name fileObj;
                        part_contentType := mimeType |} ] |}) ∧
  (within_limit (Suitelet.JSON_stringify P (Suitelet.payload P fileObj mimeType)) = false →
   app E (received P fileObj mimeType) =
     Some (json 500 (JS.Obj [("error", JS.Str "Internal server error")]), [])).
Proof.
  intros Hc Hk%API_KEY_default.
  split; [|split; [|apply received_over]].
  { unfold received. by destruct (within_limit _). }
  intros Hl. pose proof (received_forwards fileObj mimeType Hc Hk Hl) as Hf.
  split; [apply forwards_calls; by constructor|].
  repeat split.
Qed.

(** Property X17. When the gateway is configured with a key other than
    the one the script hard-codes, nothing is forwarded for any post of the
    Suitelet: a post whose body is within the limit of the JSON parser is
    answered 401, and a larger one 500, ahead of the key check. *)
Theorem X17_other_key_rejects_suitelet
    (fileObj : Suitelet.File) (mimeType : string) (k : string) :
  env_API_KEY E = Some k → k ≠ EmptyString → k ≠ Suitelet.apiKey →
  app E (received P fileObj mimeType) =
    Some (if within_limit
               (Suitelet.JSON_stringify P (Suitelet.payload P fileObj mimeType))
          then unauthorized
          else json 500 (JS.Obj [("error", JS.Str "Internal server error")]),
          []).
Proof.
  intros Hk Hne Hneq.
  destruct (within_limit _) eqn:Hl; [|by apply received_over].
  rewrite (received_within _ _ Hl).
  assert (API_KEY E = k) as Hkey.
  { unfold API_KEY, JS.or_else. rewrite Hk.
    by destruct (String.eqb_spec k EmptyString). }
  destruct (api_key_middleware E (arriving (Suitelet.payload P fileObj mimeType)))
    as [r|] eqn:Hmw.
  - apply api_key_middleware_rejects in Hmw as Heq. subst r.
    unfold app, dispatch. simpl. by rewrite Hmw.
  - apply api_key_middleware_next in Hmw as [H|[H|H]]; try discriminate.
    simpl in H. rewrite lookup_insert_eq, Hkey in H. by injection H as <-.
Qed.

(** Property X18. A file with empty contents is rejected by the gateway:
    the post of the Suitelet for it is answered 400 with
    [{error: "base64Data is required"}] and nothing is forwarded. *)
Theorem X18_empty_file_rejected (fileObj : Suitelet.File) (mimeType : string) :
  Suitelet.contents fileObj = EmptyString →
  env_API_KEY E = None ∨ env_API_KEY E = Some EmptyString ∨
  env_API_KEY E = Some Suitelet.apiKey →
  app E (arriving (Suitelet.payload P fileObj mimeType)) =
    Some (json 400 (JS.Obj [("error", JS.Str "base64Data is required")]), []).
Proof.
  intros Hc Hk%API_KEY_default.
  rewrite (app_convert E _ _ _ (arriving_routed _ Hk) (arriving_read fileObj mimeType)).
  rewrite convert_handler_missing; [done|]. right. simpl. by rewrite Hc.
Qed.

(** Property X19. When one of the gateway's own answers to a convert
    request (the 401 of the key check, the 400 for a missing [base64Data],
    the 500 of the error handler) reaches the Suitelet, the file is recorded
    as [failed], not as [error], with the gateway's status as
    [middlewareStatus] and an undefined [zohoStatus]. *)
Theorem X19_gateway_rejection_recorded_failed
    (fileObj : Suitelet.File) (resp : Response)
    (response : Suitelet.ClientResponse) :
  resp ∈ local_answers →
  delivered P resp response →
  Suitelet.try_block P fileObj (inr response) =
    inr (JS.Obj
      [ ("fileName", JS.Str (Suitelet.name fileObj));
        ("status", JS.Str "failed");
        ("middlewareStatus", JS.Num (status resp));
        ("zohoStatus", JS.Undefined);
        ("zohoResponse", JS.Undefined);
        ("message", JS.Str "Zoho upload failed with status: undefined") ]).
Proof.
  intros Hin (Hcode & v & Hbody & Hparse).
  unfold Suitelet.try_block. rewrite Hparse, Hcode.
  unfold local_answers in Hin.
  rewrite !elem_of_cons, elem_of_nil in Hin.
  destruct Hin as [->|[->|[->|[]]]]; simpl in Hbody; injection Hbody as <-;
    reflexivity.
Qed.

(** Property X20. The whole chain for one file with non-empty contents
    whose post is within the limit of the parser, under the default key,
    when the upstream completes the exchange for the forwarded request with
    an answer [r] of a status from 200 to 999. For a status other than 204,
    205 and 304, when the gateway's answer reaches the Suitelet as sent, the
    entry is [success] if the status of [r] is 200 or 201 and [failed]
    otherwise, with that status and the data of [r]. For the statuses 204
    and 304 the gateway's answer has no body: the Suitelet receives the
    empty text, [JSON.parse] throws on it, and the file is recorded as
    [error]. *)
Theorem X20_upload_end_to_end
    (fileObj : Suitelet.File) (mimeType : string) (r : AxiosResponse)
    (resp : Response) (calls : list AxiosRequestConfig)
    (response : Suitelet.ClientResponse) :
  Suitelet.contents fileObj ≠ EmptyString →
  env_API_KEY E = None ∨ env_API_KEY E = Some EmptyString ∨
  env_API_KEY E = Some Suitelet.apiKey →
  within_limit (Suitelet.JSON_stringify P (Suitelet.payload P fileObj mimeType)) = true →
  network E (convert_config E (body_of P fileObj mimeType) (target_of P)) =
    Completed r →
  (200 ≤ res_status r ≤ 999)%Z →
  app E (received P fileObj mimeType) = Some (resp, calls) →
  (res_status r ≠ 204 → res_status r ≠ 205 → res_status r ≠ 304 →
   delivered P resp response →
   ∃ entry,
     Suitelet.try_block P fileObj (inr response) = inr entry ∧
     JS.field entry "fileName" = JS.Str (Suitelet.name fileObj) ∧
     JS.field entry "zohoStatus" = JS.Num (res_status r) ∧
     JS.field entry "zohoResponse" = res_data r ∧
     JS.field entry "status" =
       JS.Str (if bool_decide (res_status r = 200 ∨ res_status r = 201)
               then "success" else "failed")) ∧
  (res_status r = 204 ∨ res_status r = 304 →
   body resp = Empty ∧
   ∀ e, Suitelet.body response = EmptyString →
        Suitelet.JSON_parse P EmptyString = inl e →
        Suitelet.try_block P fileObj (inr response) = inl e ∧
        JS.field (Suitelet.error_entry fileObj e) "status" = JS.Str "error").
Proof.
  intros Hc Hk%API_KEY_default Hl Hn Hst Happ.
  pose proof (received_forwards fileObj mimeType Hc Hk Hl) as Hf.
  rewrite (app_forwards_completed E _ _ r (forwards_convert _ _ _ _ Hf) Hn)
    in Happ by lia.
  injection Happ as <- <-. split.
  - intros H204 H205 H304 (Hcode & v & Hbody & Hparse).
    rewrite relay_body in Hbody by (done || lia). injection Hbody as <-.
    unfold Suitelet.try_block. rewrite Hparse. simpl.
    eexists. split; [done|]. repeat split.
    destruct (Z.eqb_spec (res_status r) 200) as [->|H200]; simpl; [done|].
    destruct (Z.eqb_spec (res_status r) 201) as [->|H201]; simpl; [done|].
    by rewrite bool_decide_eq_false_2 by (intros [?|?]; done).
  - intros Hbare. split; [by apply relay_bare|].
    intros e Hempty Hparse. unfold Suitelet.try_block.
    by rewrite Hempty, Hparse.
Qed.

End LinkFacts.

Section LinkCases.
Import Gateway Link Cases.

Lemma X16_suitelet_post_is_forwarded_witness :
  Suitelet.contents (Suitelet.file_load answered "7") ≠ EmptyString ∧
  env_API_KEY (answering (Completed (upstream 201))) = None ∧
  within_limit
    (Suitelet.JSON_stringify answered
       (Suitelet.payload answered (Suitelet.file_load answered "7")
          "application/pdf")) = true ∧
  snd <$> app (answering (Completed (upstream 201)))
            (received answered (Suitelet.file_load answered "7") "application/pdf") =
    Some [convert_config (answering (Completed (upstream 201)))
            (body_of answered (Suitelet.file_load answered "7") "application/pdf")
            (target_of answered)] ∧
  req_headers
    (convert_config (answering (Completed (upstream 201)))
       (body_of answered (Suitelet.file_load answered "7") "application/pdf")
       (target_of answered)) !! "Authorization" = Some "Zoho-oauthtoken 1000.abc".
Proof.
  split; [discriminate|]. split; [reflexivity|]. split; [reflexivity|].
  destruct (X16_suitelet_post_is_forwarded answered
              (answering (Completed (upstream 201)))
              (Suitelet.file_load answered "7") "application/pdf")
    as (_ & H & _);
    [discriminate | left; reflexivity |].
  destruct (H eq_refl) as (Hcalls & _ & _ & Hauth & _).
  split; [exact Hcalls | exact Hauth].
Defined.

Lemma X17_other_key_rejects_suitelet_witness :
  env_API_KEY {| env_API_KEY := Some "rotated"; boundary := "b";
                 now := "2025-01-01T00:00:00.000Z";
                 network := fun _ => Completed (upstream 201);
                 express := plain |} = Some "rotated" ∧
  app {| env_API_KEY := Some "rotated"; boundary := "b";
         now := "2025-01-01T00:00:00.000Z";
         network := fun _ => Completed (upstream 201);
         express := plain |}
      (received answered (Suitelet.file_load answered "7") "application/pdf") =
    Some (unauthorized, []).
Proof.
  split; [reflexivity|].
  apply (X17_other_key_rejects_suitelet answered _
           (Suitelet.file_load answered "7") "application/pdf" "rotated");
    [reflexivity | discriminate | discriminate].
Defined.

Lemma X18_empty_file_rejected_witness :
  Suitelet.contents (Suitelet.file_load answered "0") = EmptyString ∧
  app (answering (Completed (upstream 201)))
      (arriving (Suitelet.payload answered (Suitelet.file_load answered "0")
                   "application/pdf")) =
    Some (json 400 (JS.Obj [("error", JS.Str "base64Data is required")]), []).
Proof.
  split; [reflexivity|].
  apply (X18_empty_file_rejected answered (answering (Completed (upstream 201))));
    [reflexivity | left; reflexivity].
Defined.

Lemma X19_gateway_rejection_recorded_failed_witness :
  unauthorized ∈ local_answers ∧
  delivered answered unauthorized {| Suitelet.code := 401; Suitelet.body := "401" |} ∧
  JS.field
    match Suitelet.try_block answered (Suitelet.file_load answered "7")
            (inr {| Suitelet.code := 401; Suitelet.body := "401" |}) with
    | inr entry => entry
    | inl _ => JS.Undefined
    end "status" = JS.Str "failed".
Proof.
  assert (unauthorized ∈ local_answers) as Hin by (apply list_elem_of_here).
  assert (delivered answered unauthorized
            {| Suitelet.code := 401; Suitelet.body := "401" |}) as Hd.
  { split; [reflexivity|]. eexists. split; reflexivity. }
  split; [exact Hin|]. split; [exact Hd|].
  rewrite (X19_gateway_rejection_recorded_failed answered
             (Suitelet.file_load answered "7") unauthorized _ Hin Hd).
  reflexivity.
Defined.

Lemma X20_upload_end_to_end_witness :
  delivered answered (relay (upstream 201))
    {| Suitelet.code := 201; Suitelet.body := "201" |} ∧
  ∃ entry,
    Suitelet.try_block answered (Suitelet.file_load answered "7")
      (inr {| Suitelet.code := 201; Suitelet.body := "201" |}) = inr entry ∧
    JS.field entry "fileName" = JS.Str "bill-7.pdf" ∧
    JS.field entry "zohoStatus" = JS.Num 201 ∧
    JS.field entry "zohoResponse" = res_data (upstream 201) ∧
    JS.field entry "status" = JS.Str "success".
Proof.
  assert (delivered answered (relay (upstream 201))
            {| Suitelet.code := 201; Suitelet.body := "201" |}) as Hd.
  { split; [reflexivity|]. eexists. split; reflexivity. }
  split; [exact Hd|].
  destruct (X20_upload_end_to_end answered (answering (Completed (upstream 201)))
              (Suitelet.file_load answered "7") "application/pdf" (upstream 201)
              (relay (upstream 201))
              [convert_config (answering (Completed (upstream 201)))
                 (body_of answered (Suitelet.file_load answered "7")
                    "application/pdf")
                 (target_of answered)]
              {| Suitelet.code := 201; Suitelet.body := "201" |})
    as [H _];
    [discriminate | left; reflexivity | reflexivity | reflexivity
    | simpl; lia | reflexivity |].
  apply H; [discriminate | discriminate | discriminate | exact Hd].
Defined.

(** An upload that the upstream accepts with 204 is recorded as an error:
    the gateway relays the status without a body, and the empty text does
    not parse. *)
Example no_content_is_an_error :
  app (answering (Completed (upstream 204)))
      (received answered (Suitelet.file_load answered "7") "application/pdf") =
    Some ({| status := 204; headers := ∅; body := Empty |},
          [convert_config (answering (Completed (upstream 204)))
             (body_of answered (Suitelet.file_load answered "7") "application/pdf")
             (target_of answered)]) ∧
  ∃ e,
    Suitelet.try_block answered (Suitelet.file_load answered "7")
      (inr {| Suitelet.code := 204; Suitelet.body := EmptyString |}) = inl e ∧
    JS.err_class e = JS.SyntaxError.
Proof. split; [reflexivity|]. eexists. split; reflexivity. Qed.

End LinkCases.
